(** * Verification of the user service of snake (package [user])

    The development embeds the service methods of [userService] as Rocq
    functions.  Go values are modelled as follows: [uint64] ids are [N],
    [int] values are [Z], Go maps are [gmap], a Go [error] is an optional
    error value ([None] is [nil]), an entry of a result slice, which may
    be [nil], is an [option], and the records a repository returns are
    taken to be non-nil.  The database reached through [model.GetDB()] is passed
    explicitly as a [Store]; a gorm transaction is a working copy of the
    store together with its state.  The repositories held by the service
    are interfaces in the source, so they are records of operations here. *)

From Stdlib Require Import ZArith NArith String List Lia DecimalString.
From stdpp Require Import base option list gmap strings.

Local Open Scope string_scope.
Local Open Scope Z_scope.
Local Open Scope list_scope.

(** ** Errors *)

(** The error values the service sees: gorm's [ErrRecordNotFound], any
    other failure of a repository, of the driver or of the token signer,
    and an error wrapped with a context message by [errors.Wrap]. *)
Inductive errv : Type :=
| ErrRecordNotFound
| ErrOther (msg : string)
| Wrapped (cause : errv) (msg : string).

Abbreviation error := (option errv).

(** [errors.Wrap] and [errors.Wrapf]: wrapping [nil] gives [nil]. *)
Definition errors_Wrap (err : error) (msg : string) : error :=
  match err with
  | None => None
  | Some e => Some (Wrapped e msg)
  end.

(** [gorm.IsRecordNotFoundError]. *)
Definition IsRecordNotFoundError (err : error) : bool :=
  match err with
  | Some ErrRecordNotFound => true
  | _ => false
  end.

(** [strconv.Itoa]. *)
Definition Itoa (n : Z) : string := NilZero.string_of_int (Z.to_int n).

(** ** Data model *)

Definition uint64 := N.

(** The constants of the package. *)
Definition FollowStatusNormal : Z := 1.
Definition FollowStatusDelete : Z := 0.
Definition MaxID : uint64 := 0xffffffffffff%N.

(** [model.UserBaseModel], with the fields the service reads and writes;
    the timestamps are seconds, [0] being the zero [time.Time]. *)
Record UserBaseModel : Type := {
  ID : uint64;
  Username : string;
  Password : string;
  Email : string;
  Phone : Z;
  CreatedAt : Z;
  UpdatedAt : Z
}.

(** The zero value of [model.UserBaseModel]. *)
Definition zeroUser : UserBaseModel :=
  {| ID := 0%N; Username := ""; Password := ""; Email := ""; Phone := 0;
     CreatedAt := 0; UpdatedAt := 0 |}.

(** [model.UserFollowModel]: a row of the follow table. *)
Record UserFollowModel : Type := {
  follow_ID : uint64;
  follow_UserID : uint64;
  follow_FollowedUID : uint64;
  follow_Status : Z
}.

Definition zeroFollow : UserFollowModel :=
  {| follow_ID := 0%N; follow_UserID := 0%N; follow_FollowedUID := 0%N;
     follow_Status := 0 |}.

(** Modelled from the spec: [model.UserFansModel] is declared outside this
    file; a fan row is the follow edge stored under the followed user. *)
Record UserFansModel : Type := {
  fans_ID : uint64;
  fans_UserID : uint64;
  fans_FollowerUID : uint64;
  fans_Status : Z
}.

(** Modelled from the spec: the type [model.UserStatModel] is declared
    outside this file; the spec gives it the two counters
    followingCount and followerCount. *)
Record UserStatModel : Type := {
  FollowCount : Z;
  FollowerCount : Z
}.

(** Modelled from the spec: the tables behind [model.GetDB()] are not part
    of this file.  The follow table maps (user, followed user) to a status,
    the fans table maps (user, fan) to a status, the stat table maps a user
    to its counters; rows are never removed, only their status changes. *)
Record Store : Type := {
  user_tbl : list UserBaseModel;
  follow_tbl : gmap (uint64 * uint64) Z;
  fans_tbl : gmap (uint64 * uint64) Z;
  stat_tbl : gmap uint64 UserStatModel
}.

Definition emptyStore : Store :=
  {| user_tbl := []; follow_tbl := ∅; fans_tbl := ∅; stat_tbl := ∅ |}.

(** What a reader of the store observes. *)
Definition followStatus (st : Store) (userID followedUID : uint64) : option Z :=
  follow_tbl st !! (userID, followedUID).

Definition fansStatus (st : Store) (userID followerUID : uint64) : option Z :=
  fans_tbl st !! (userID, followerUID).

Definition followCount (st : Store) (userID : uint64) : Z :=
  match stat_tbl st !! userID with
  | Some s => FollowCount s
  | None => 0
  end.

Definition followerCount (st : Store) (userID : uint64) : Z :=
  match stat_tbl st !! userID with
  | Some s => FollowerCount s
  | None => 0
  end.

(** ** Repository interfaces

    [user.BaseRepo], [user.FollowRepo] and [user.StatRepo] are interfaces
    whose implementations live in another package.  An operation takes
    the store (or the working copy of a transaction) and returns the new
    store and an error; nothing is assumed here about when it fails. *)

(** What a call of an operation inside a transaction does: it returns the
    new working copy and an error, or it panics.  The two transitions
    defer a [recover], so a panic of a step is an outcome of its own. *)
Inductive Step : Type :=
| Ret (w : Store) (err : error)
| Panic.

Module user.

Record BaseRepo : Type := {
  Create : Store → UserBaseModel → Store * (uint64 * error);
  GetUserByID : Store → uint64 → UserBaseModel * error;
  GetUsersByIds : Store → list uint64 → list UserBaseModel * error;
  GetUserByPhone : Store → Z → UserBaseModel * error
}.

Record FollowRepo : Type := {
  CreateUserFollow : Store → uint64 → uint64 → Step;
  CreateUserFans : Store → uint64 → uint64 → Step;
  UpdateUserFollowStatus : Store → uint64 → uint64 → Z → Step;
  UpdateUserFansStatus : Store → uint64 → uint64 → Z → Step;
  GetFollowByUIds :
    Store → uint64 → list uint64 → gmap uint64 UserFollowModel * error;
  GetFansByUIds :
    Store → uint64 → list uint64 → gmap uint64 UserFansModel * error
}.

Record StatRepo : Type := {
  IncrFollowCount : Store → uint64 → Z → Step;
  IncrFollowerCount : Store → uint64 → Z → Step;
  GetUserStatByIDs : Store → list uint64 → gmap uint64 UserStatModel * error
}.

End user.

(** The struct [userService]. *)
Record userService : Type := {
  userRepo : user.BaseRepo;
  userFollowRepo : user.FollowRepo;
  userStatRepo : user.StatRepo
}.

(** What the service uses of gorm directly: the error of [tx.Commit()] on
    a working copy, and the query of [IsFollowedUser], which fills a
    follow row and reports an error. *)
Record Gorm : Type := {
  CommitError : Store → error;
  FindUserFollow : Store → uint64 → uint64 → UserFollowModel * error
}.

(** ** Transactions *)

Inductive TxState : Type := TxActive | TxCommitted | TxRolledBack.

(** A transaction handle: the working copy its statements have produced
    and whether it is still open. *)
Record Tx : Type := {
  tx_work : Store;
  tx_state : TxState
}.

(** [db.Begin()]. *)
Definition Begin (db : Store) : Tx := {| tx_work := db; tx_state := TxActive |}.

(** [tx.Rollback()]. *)
Definition Rollback (tx : Tx) : Tx :=
  {| tx_work := tx_work tx; tx_state := TxRolledBack |}.

(** A repository operation run on the transaction handle; [None] when it
    panics. *)
Definition exec (tx : Tx) (op : Store → Step) : option (Tx * error) :=
  match op (tx_work tx) with
  | Ret w err => Some ({| tx_work := w; tx_state := tx_state tx |}, err)
  | Panic => None
  end.

(** What a transactional method leaves behind: the committed store, the
    transaction handle as the method left it, and the returned error. *)
Record TxResult : Type := {
  db_after : Store;
  tx_after : Tx;
  ret : error
}.

(** [tx.Commit().Error]: on success the working copy becomes the
    committed store. *)
Definition Commit (g : Gorm) (db : Store) (tx : Tx) : Store * Tx * error :=
  match CommitError g (tx_work tx) with
  | Some e => (db, tx, Some e)
  | None => (tx_work tx, {| tx_work := tx_work tx; tx_state := TxCommitted |}, None)
  end.

(** The deferred function of the two transitions once a step has
    panicked: [recover()] is not [nil], so the transaction is rolled back,
    and the method returns the zero value of its unnamed result, [nil]. *)
Definition recovered (db : Store) (tx : Tx) : TxResult :=
  {| db_after := db; tx_after := Rollback tx; ret := None |}.

(** ** The relationship transitions *)

Section Transitions.

Variable g : Gorm.
Variable srv : userService.

(** [AddUserFollow].  A step that panics is caught by the deferred
    function ([recovered]); when no step panics the deferred function does
    nothing. *)
Definition AddUserFollow (db : Store) (userID followedUID : uint64) : TxResult :=
  let tx := Begin db in
  match
    exec tx (λ w, user.CreateUserFollow (userFollowRepo srv) w userID followedUID)
  with
  | None => recovered db tx
  | Some (tx, err) =>
  match err with
  | Some _ =>
      {| db_after := db; tx_after := Rollback tx;
         ret := errors_Wrap err "insert into user follow err" |}
  | None =>
  match
    exec tx (λ w, user.CreateUserFans (userFollowRepo srv) w followedUID userID)
  with
  | None => recovered db tx
  | Some (tx, err) =>
  match err with
  | Some _ =>
      {| db_after := db; tx_after := Rollback tx;
         ret := errors_Wrap err "insert into user fans err" |}
  | None =>
  match exec tx (λ w, user.IncrFollowCount (userStatRepo srv) w userID 1) with
  | None => recovered db tx
  | Some (tx, err) =>
  match err with
  | Some _ =>
      {| db_after := db; tx_after := Rollback tx;
         ret := errors_Wrap err "update user follow count err" |}
  | None =>
  match exec tx (λ w, user.IncrFollowerCount (userStatRepo srv) w followedUID 1) with
  | None => recovered db tx
  | Some (tx, err) =>
  match err with
  | Some _ =>
      (* this branch returns without [tx.Rollback()] *)
      {| db_after := db; tx_after := tx;
         ret := errors_Wrap err "update user fans count err" |}
  | None =>
  let '(db', tx, err) := Commit g db tx in
  match err with
  | Some _ =>
      {| db_after := db'; tx_after := Rollback tx;
         ret := errors_Wrap err "tx commit err" |}
  | None => {| db_after := db'; tx_after := tx; ret := None |}
  end end end end end end end end end.

(** [CancelUserFollow], with the same deferred function. *)
Definition CancelUserFollow (db : Store) (userID followedUID : uint64) : TxResult :=
  let tx := Begin db in
  match
    exec tx (λ w, user.UpdateUserFollowStatus (userFollowRepo srv) w userID followedUID
                    FollowStatusDelete)
  with
  | None => recovered db tx
  | Some (tx, err) =>
  match err with
  | Some _ =>
      {| db_after := db; tx_after := Rollback tx;
         ret := errors_Wrap err "update user follow err" |}
  | None =>
  match
    exec tx (λ w, user.UpdateUserFansStatus (userFollowRepo srv) w followedUID userID
                    FollowStatusDelete)
  with
  | None => recovered db tx
  | Some (tx, err) =>
  match err with
  | Some _ =>
      {| db_after := db; tx_after := Rollback tx;
         ret := errors_Wrap err "update user follow err" |}
  | None =>
  match exec tx (λ w, user.IncrFollowCount (userStatRepo srv) w userID (-1)) with
  | None => recovered db tx
  | Some (tx, err) =>
  match err with
  | Some _ =>
      {| db_after := db; tx_after := Rollback tx;
         ret := errors_Wrap err "update user follow count err" |}
  | None =>
  match exec tx (λ w, user.IncrFollowerCount (userStatRepo srv) w followedUID (-1)) with
  | None => recovered db tx
  | Some (tx, err) =>
  match err with
  | Some _ =>
      {| db_after := db; tx_after := Rollback tx;
         ret := errors_Wrap err "update user fans count err" |}
  | None =>
  let '(db', tx, err) := Commit g db tx in
  match err with
  | Some _ =>
      {| db_after := db'; tx_after := Rollback tx;
         ret := errors_Wrap err "tx commit err" |}
  | None => {| db_after := db'; tx_after := tx; ret := None |}
  end end end end end end end end end.

(** [IsFollowedUser]. *)
Definition IsFollowedUser (db : Store) (userID followedUID : uint64) : bool :=
  let '(userFollowModel, err) := FindUserFollow g db userID followedUID in
  match err with
  | Some _ => false
  | None =>
      if (0 <? follow_ID userFollowModel)%N
         && (follow_Status userFollowModel =? FollowStatusNormal)
      then true
      else false
  end.

End Transitions.

(** ** Repositories in memory

    The implementations of the repositories are outside this file; the
    ones below follow the spec and serve to run the service on concrete
    stores.  Every operation first consults a fault plan, so that a
    failure can be injected at any port. *)

Inductive Port : Type :=
| PCreate | PGetUserByID | PGetUsersByIds | PGetUserByPhone
| PCreateUserFollow | PCreateUserFans
| PUpdateUserFollowStatus | PUpdateUserFansStatus
| PGetFollowByUIds | PGetFansByUIds
| PIncrFollowCount | PIncrFollowerCount | PGetUserStatByIDs
| PCommit | PFind.

Definition Faults := Port → error.

Definition noFaults : Faults := λ _, None.

Definition withUsers (st : Store) (us : list UserBaseModel) : Store :=
  {| user_tbl := us; follow_tbl := follow_tbl st; fans_tbl := fans_tbl st;
     stat_tbl := stat_tbl st |}.

Definition withFollow (st : Store) (m : gmap (uint64 * uint64) Z) : Store :=
  {| user_tbl := user_tbl st; follow_tbl := m; fans_tbl := fans_tbl st;
     stat_tbl := stat_tbl st |}.

Definition withFans (st : Store) (m : gmap (uint64 * uint64) Z) : Store :=
  {| user_tbl := user_tbl st; follow_tbl := follow_tbl st; fans_tbl := m;
     stat_tbl := stat_tbl st |}.

Definition withStat (st : Store) (m : gmap uint64 UserStatModel) : Store :=
  {| user_tbl := user_tbl st; follow_tbl := follow_tbl st; fans_tbl := fans_tbl st;
     stat_tbl := m |}.

(** An operation that fails when the plan says so. *)
Definition guarded (f : Faults) (p : Port) (st : Store) (upd : Store) : Step :=
  match f p with
  | Some e => Ret st (Some e)
  | None => Ret upd None
  end.

(** The next value of the auto-increment key of the users table. *)
Definition nextID (us : list UserBaseModel) : uint64 :=
  (1 + foldr N.max 0 (ID <$> us))%N.

Definition setID (u : UserBaseModel) (id : uint64) : UserBaseModel :=
  {| ID := id; Username := Username u; Password := Password u; Email := Email u;
     Phone := Phone u; CreatedAt := CreatedAt u; UpdatedAt := UpdatedAt u |}.

(** Modelled from the spec: the user repository ([CreateUser],
    [GetUserByID/Phone], [GetUsersByIDs]).  A phone that is not registered
    gives the zero record and no error, which is the case [PhoneLogin]
    tests with [u.ID == 0]. *)
Definition memBaseRepo (f : Faults) : user.BaseRepo := {|
  user.Create st u :=
    match f PCreate with
    | Some e => (st, (0%N, Some e))
    | None =>
        let id := nextID (user_tbl st) in
        (withUsers st (user_tbl st ++ [setID u id])%list, (id, None))
    end;
  user.GetUserByID st id :=
    match f PGetUserByID with
    | Some e => (zeroUser, Some e)
    | None =>
        match find (λ u, (ID u =? id)%N) (user_tbl st) with
        | Some u => (u, None)
        | None => (zeroUser, Some ErrRecordNotFound)
        end
    end;
  user.GetUsersByIds st ids :=
    match f PGetUsersByIds with
    | Some e => ([], Some e)
    | None => (filter (λ u, ID u ∈ ids) (user_tbl st), None)
    end;
  user.GetUserByPhone st phone :=
    match f PGetUserByPhone with
    | Some e => (zeroUser, Some e)
    | None =>
        match find (λ u, Phone u =? phone) (user_tbl st) with
        | Some u => (u, None)
        | None => (zeroUser, None)
        end
    end
|}.

(** Modelled from the spec: the follow repository.  Creating an edge or a
    fan row creates or reactivates it as Normal, updating a status changes
    the row that exists, and the two lookups give the targets with a
    Normal row. *)
Definition memFollowRepo (f : Faults) : user.FollowRepo := {|
  user.CreateUserFollow st a b :=
    guarded f PCreateUserFollow st
      (withFollow st (<[(a, b) := FollowStatusNormal]> (follow_tbl st)));
  user.CreateUserFans st a b :=
    guarded f PCreateUserFans st
      (withFans st (<[(a, b) := FollowStatusNormal]> (fans_tbl st)));
  user.UpdateUserFollowStatus st a b s :=
    guarded f PUpdateUserFollowStatus st
      (withFollow st (alter (λ _, s) (a, b) (follow_tbl st)));
  user.UpdateUserFansStatus st a b s :=
    guarded f PUpdateUserFansStatus st
      (withFans st (alter (λ _, s) (a, b) (fans_tbl st)));
  user.GetFollowByUIds st a ids :=
    match f PGetFollowByUIds with
    | Some e => (∅, Some e)
    | None =>
        (list_to_map
           (omap (λ t, match follow_tbl st !! (a, t) with
                       | Some s =>
                           if s =? FollowStatusNormal
                           then Some (t, {| follow_ID := 1%N; follow_UserID := a;
                                            follow_FollowedUID := t;
                                            follow_Status := s |})
                           else None
                       | None => None
                       end) ids), None)
    end;
  user.GetFansByUIds st a ids :=
    match f PGetFansByUIds with
    | Some e => (∅, Some e)
    | None =>
        (list_to_map
           (omap (λ t, match fans_tbl st !! (a, t) with
                       | Some s =>
                           if s =? FollowStatusNormal
                           then Some (t, {| fans_ID := 1%N; fans_UserID := a;
                                            fans_FollowerUID := t;
                                            fans_Status := s |})
                           else None
                       | None => None
                       end) ids), None)
    end
|}.

(** Modelled from the spec: the stat repository; a counter that has no row
    yet counts from zero. *)
Definition memStatRepo (f : Faults) : user.StatRepo := {|
  user.IncrFollowCount st id d :=
    guarded f PIncrFollowCount st
      (withStat st (<[id := {| FollowCount := followCount st id + d;
                               FollowerCount := followerCount st id |}]> (stat_tbl st)));
  user.IncrFollowerCount st id d :=
    guarded f PIncrFollowerCount st
      (withStat st (<[id := {| FollowCount := followCount st id;
                               FollowerCount := followerCount st id + d |}]> (stat_tbl st)));
  user.GetUserStatByIDs st ids :=
    match f PGetUserStatByIDs with
    | Some e => (∅, Some e)
    | None =>
        (list_to_map (omap (λ t, (λ s, (t, s)) <$> stat_tbl st !! t) ids), None)
    end
|}.

Definition memService (f : Faults) : userService :=
  {| userRepo := memBaseRepo f; userFollowRepo := memFollowRepo f;
     userStatRepo := memStatRepo f |}.

(** gorm on the store in memory: the query of [IsFollowedUser] leaves the
    row at its zero value and reports [ErrRecordNotFound] when no row
    matches. *)
Definition memGorm (f : Faults) : Gorm := {|
  CommitError _ := f PCommit;
  FindUserFollow st a b :=
    match f PFind with
    | Some e => (zeroFollow, Some e)
    | None =>
        match follow_tbl st !! (a, b) with
        | Some s => ({| follow_ID := 1%N; follow_UserID := a;
                        follow_FollowedUID := b; follow_Status := s |}, None)
        | None => (zeroFollow, Some ErrRecordNotFound)
        end
    end
|}.

(** A plan with one failing port. *)
Definition failAt (p : Port) (e : errv) : Faults :=
  λ q, match p, q with
       | PCreate, PCreate | PGetUserByID, PGetUserByID
       | PGetUsersByIds, PGetUsersByIds | PGetUserByPhone, PGetUserByPhone
       | PCreateUserFollow, PCreateUserFollow | PCreateUserFans, PCreateUserFans
       | PUpdateUserFollowStatus, PUpdateUserFollowStatus
       | PUpdateUserFansStatus, PUpdateUserFansStatus
       | PGetFollowByUIds, PGetFollowByUIds | PGetFansByUIds, PGetFansByUIds
       | PIncrFollowCount, PIncrFollowCount | PIncrFollowerCount, PIncrFollowerCount
       | PGetUserStatByIDs, PGetUserStatByIDs | PCommit, PCommit | PFind, PFind => Some e
       | _, _ => None
       end.

(** ** Contracts of the repositories *)

Definition same_counts (st st' : Store) : Prop :=
  ∀ id, followCount st' id = followCount st id
        ∧ followerCount st' id = followerCount st id.

Definition same_follow (st st' : Store) : Prop :=
  ∀ c d, followStatus st' c d = followStatus st c d.

Definition same_fans (st st' : Store) : Prop :=
  ∀ c d, fansStatus st' c d = fansStatus st c d.

(** The row [(a, b)] of the follow table is created or reactivated with
    status [s]; no other row changes. *)
Definition follow_set (st st' : Store) (a b : uint64) (s : Z) : Prop :=
  followStatus st' a b = Some s
  ∧ ∀ c d, (c, d) ≠ (a, b) → followStatus st' c d = followStatus st c d.

Definition fans_set (st st' : Store) (a b : uint64) (s : Z) : Prop :=
  fansStatus st' a b = Some s
  ∧ ∀ c d, (c, d) ≠ (a, b) → fansStatus st' c d = fansStatus st c d.

(** The row [(a, b)] of the follow table, when there is one, takes status
    [s]; no row is created and no other row changes. *)
Definition follow_upd (st st' : Store) (a b : uint64) (s : Z) : Prop :=
  (is_Some (followStatus st a b) → followStatus st' a b = Some s)
  ∧ ∀ c d, (c, d) ≠ (a, b) → followStatus st' c d = followStatus st c d.

Definition fans_upd (st st' : Store) (a b : uint64) (s : Z) : Prop :=
  (is_Some (fansStatus st a b) → fansStatus st' a b = Some s)
  ∧ ∀ c d, (c, d) ≠ (a, b) → fansStatus st' c d = fansStatus st c d.

(** Modelled from the spec: the repository implementations are outside
    this file.  The spec states what a call that returns no error does:
    creating an edge or its fan projection makes that row Normal, updating
    a status sets it on that row, a counter increment adds its delta to
    that user's counter, and a port touches nothing but its own record. *)
Record RepoContract (srv : userService) : Prop := {
  CreateUserFollow_ok : ∀ st st' a b,
    user.CreateUserFollow (userFollowRepo srv) st a b = Ret st' None →
    follow_set st st' a b FollowStatusNormal ∧ same_fans st st' ∧ same_counts st st';
  CreateUserFans_ok : ∀ st st' a b,
    user.CreateUserFans (userFollowRepo srv) st a b = Ret st' None →
    fans_set st st' a b FollowStatusNormal ∧ same_follow st st' ∧ same_counts st st';
  UpdateUserFollowStatus_ok : ∀ st st' a b s,
    user.UpdateUserFollowStatus (userFollowRepo srv) st a b s = Ret st' None →
    follow_upd st st' a b s ∧ same_fans st st' ∧ same_counts st st';
  UpdateUserFansStatus_ok : ∀ st st' a b s,
    user.UpdateUserFansStatus (userFollowRepo srv) st a b s = Ret st' None →
    fans_upd st st' a b s ∧ same_follow st st' ∧ same_counts st st';
  IncrFollowCount_ok : ∀ st st' id d,
    user.IncrFollowCount (userStatRepo srv) st id d = Ret st' None →
    followCount st' id = followCount st id + d
    ∧ (∀ id', id' ≠ id → followCount st' id' = followCount st id')
    ∧ (∀ id', followerCount st' id' = followerCount st id')
    ∧ same_follow st st' ∧ same_fans st st';
  IncrFollowerCount_ok : ∀ st st' id d,
    user.IncrFollowerCount (userStatRepo srv) st id d = Ret st' None →
    followerCount st' id = followerCount st id + d
    ∧ (∀ id', id' ≠ id → followerCount st' id' = followerCount st id')
    ∧ (∀ id', followCount st' id' = followCount st id')
    ∧ same_follow st st' ∧ same_fans st st'
}.

(** The follow edge of a pair and its fan projection agree. *)
Definition edge_consistent (st : Store) (a b : uint64) : Prop :=
  (followStatus st a b = Some FollowStatusNormal
   ∧ fansStatus st b a = Some FollowStatusNormal)
  ∨ (followStatus st a b = Some FollowStatusDelete
     ∧ fansStatus st b a = Some FollowStatusDelete).

(** A follow or an unfollow request. *)
Inductive Op : Type :=
| Follow (a b : uint64)
| Unfollow (a b : uint64).

Definition apply_op (g : Gorm) (srv : userService) (db : Store) (op : Op) : TxResult :=
  match op with
  | Follow a b => AddUserFollow g srv db a b
  | Unfollow a b => CancelUserFollow g srv db a b
  end.

(** The committed stores after each request of a sequence in which every
    request succeeds; [None] as soon as one returns an error. *)
Fixpoint run_ops (g : Gorm) (srv : userService) (db : Store) (ops : list Op)
  : option (list Store) :=
  match ops with
  | [] => Some []
  | op :: rest =>
      let r := apply_op g srv db op in
      match ret r with
      | Some _ => None
      | None =>
          match run_ops g srv (db_after r) rest with
          | Some tr => Some (db_after r :: tr)
          | None => None
          end
      end
  end.

(** A failed call has reverted its steps: the committed store is the one
    before the call and the transaction has been rolled back. *)
Definition reverted (db : Store) (r : TxResult) : Prop :=
  db_after r = db ∧ tx_state (tx_after r) = TxRolledBack.

(** The four steps of a follow, threaded through the working copy. *)
Definition follow_steps (srv : userService) (db : Store) (a b : uint64)
    (w1 w2 w3 w4 : Store) : Prop :=
  user.CreateUserFollow (userFollowRepo srv) db a b = Ret w1 None
  ∧ user.CreateUserFans (userFollowRepo srv) w1 b a = Ret w2 None
  ∧ user.IncrFollowCount (userStatRepo srv) w2 a 1 = Ret w3 None
  ∧ user.IncrFollowerCount (userStatRepo srv) w3 b 1 = Ret w4 None.

Definition unfollow_steps (srv : userService) (db : Store) (a b : uint64)
    (w1 w2 w3 w4 : Store) : Prop :=
  user.UpdateUserFollowStatus (userFollowRepo srv) db a b FollowStatusDelete = Ret w1 None
  ∧ user.UpdateUserFansStatus (userFollowRepo srv) w1 b a FollowStatusDelete = Ret w2 None
  ∧ user.IncrFollowCount (userStatRepo srv) w2 a (-1) = Ret w3 None
  ∧ user.IncrFollowerCount (userStatRepo srv) w3 b (-1) = Ret w4 None.

(** ** The aggregated view *)

(** Modelled from the spec: [model.UserInfo] is declared outside this
    file; the spec makes it the user record, the two relationship flags
    and the stat counters, which are absent when the user has none. *)
Record UserInfo : Type := {
  info_User : UserBaseModel;
  info_IsFollow : Z;
  info_IsFans : Z;
  info_Stat : option UserStatModel
}.

(** [idl.TransferUserInput], as [BatchGetUsers] fills it. *)
Record TransferUserInput : Type := {
  CurUser : UserBaseModel;
  User : UserBaseModel;
  UserStat : option UserStatModel;
  IsFollow : Z;
  IsFans : Z
}.

(** Modelled from the spec: [idl.TransferUser] is defined outside this
    file; it assembles the view of [User] from its input and returns no
    error. *)
Definition TransferUser (input : TransferUserInput) : UserInfo :=
  {| info_User := User input; info_IsFollow := IsFollow input;
     info_IsFans := IsFans input; info_Stat := UserStat input |}.

(** ** Goroutines, channels and the scheduler *)

(** How a call ends for its caller. *)
Inductive Outcome (A : Type) : Type :=
| Returned (a : A)
| Blocked
| Panicked.

Arguments Returned {A} a.
Arguments Blocked {A}.
Arguments Panicked {A}.

(** A buffered channel is the queue of the values waiting in it.  A send
    on a channel that is full does not proceed: [None]. *)
Definition chan_send {A : Type} (cap : nat) (ch : list A) (x : A) : option (list A) :=
  if (length ch <? cap)%nat then Some (ch ++ [x])%list else None.

(** [if err != nil { errChan <- err }] on the channel of capacity one. *)
Definition send_if_err (err : error) (errChan : list errv) : option (list errv) :=
  match err with
  | Some e => chan_send 1 errChan e
  | None => Some errChan
  end.

(** What the Go scheduler decides during one call of [BatchGetUsers]: the
    order in which the workers take the mutex, and whether the [select]
    takes the closed [finished] channel when [errChan] holds an error
    too. *)
Record Sched : Type := {
  lock_order : list UserBaseModel → list UserBaseModel;
  finished_first : bool
}.

(** Every worker gets the mutex once. *)
Definition fair (sc : Sched) : Prop :=
  ∀ us, lock_order sc us ≡ₚ us.

(** The workers start in the order of the slice and the [select] prefers
    the error. *)
Definition inOrder : Sched := {| lock_order := id; finished_first := false |}.

(** The state the workers share. *)
Record Shared : Type := {
  chan : list errv;
  IDMap : gmap uint64 UserInfo
}.

(** The case the [select] of [BatchGetUsers] takes. *)
Inductive Selected : Type :=
| SelFinished
| SelErr (e : errv)
| SelNone.

(** [finished] is closed once every worker is done; [errChan] is ready
    when it holds a value.  With both ready the scheduler chooses. *)
Definition select (sc : Sched) (errChan : list errv) (all_done : bool) : Selected :=
  match errChan, all_done with
  | e :: _, true => if finished_first sc then SelFinished else SelErr e
  | e :: _, false => SelErr e
  | [], true => SelFinished
  | [], false => SelNone
  end.

(** ** The aggregation and the login *)

(** [token.Context]. *)
Record TokenContext : Type := {
  UserID : uint64;
  ctx_Username : string
}.

Section Service.

Variable srv : userService.

(** [token.Sign] with the context it is given. *)
Variable Sign : TokenContext → string * error.

(** The body of one worker goroutine, run under the mutex.  [err] is the
    variable of the enclosing function, which holds the error of
    [GetUserStatByIDs] when the workers run.  A worker whose send does not
    proceed keeps the mutex: [None]. *)
Definition worker (curUser : UserBaseModel)
    (userFollowMap : gmap uint64 UserFollowModel)
    (userFansMap : gmap uint64 UserFansModel)
    (userStatMap : gmap uint64 UserStatModel)
    (err : error) (u : UserBaseModel) (sh : Shared) : option Shared :=
  let isFollow := match userFollowMap !! ID u with Some _ => 1 | None => 0 end in
  let isFollowed := match userFansMap !! ID u with Some _ => 1 | None => 0 end in
  let userStat := userStatMap !! ID u in
  let transInput :=
    {| CurUser := curUser; User := u; UserStat := userStat;
       IsFollow := isFollow; IsFans := isFollowed |} in
  let userInfo := TransferUser transInput in
  match err with
  | Some e =>
      match chan_send 1 (chan sh) e with
      | Some ch => Some {| chan := ch; IDMap := IDMap sh |}
      | None => None
      end
  | None => Some {| chan := chan sh; IDMap := <[ID u := userInfo]> (IDMap sh) |}
  end.

(** The workers in the order they take the mutex; the flag tells whether
    all of them are done, which is when [wg.Wait()] returns. *)
Fixpoint run_workers (w : UserBaseModel → Shared → option Shared)
    (us : list UserBaseModel) (sh : Shared) : Shared * bool :=
  match us with
  | [] => (sh, true)
  | u :: rest =>
      match w u sh with
      | Some sh' => run_workers w rest sh'
      | None => (sh, false)
      end
  end.

(** The loop that merges the map back into the order of the ids. *)
Definition merge (m : gmap uint64 UserInfo) (ids : list uint64)
  : list (option UserInfo) :=
  foldl (λ infos id, (infos ++ [m !! id])%list) [] ids.

(** [BatchGetUsers]. *)
Definition BatchGetUsers (sc : Sched) (db : Store) (userID : uint64)
    (userIDs : list uint64) : Outcome (option (list (option UserInfo)) * error) :=
  let '(users, err) := user.GetUsersByIds (userRepo srv) db userIDs in
  match err with
  | Some _ => Returned (None, errors_Wrap err "[user_service] batch get user err")
  | None =>
  let '(curUser, err) := user.GetUserByID (userRepo srv) db userID in
  match err with
  | Some _ => Returned (None, errors_Wrap err "[user_service] get one user err")
  | None =>
  let ids := userIDs in
  let errChan : list errv := [] in
  let '(userFollowMap, err) := user.GetFollowByUIds (userFollowRepo srv) db userID userIDs in
  match send_if_err err errChan with
  | None => Blocked
  | Some errChan =>
  let '(userFansMap, err) := user.GetFansByUIds (userFollowRepo srv) db userID userIDs in
  match send_if_err err errChan with
  | None => Blocked
  | Some errChan =>
  let '(userStatMap, err) := user.GetUserStatByIDs (userStatRepo srv) db userIDs in
  match send_if_err err errChan with
  | None => Blocked
  | Some errChan =>
  let '(userList, all_done) :=
    run_workers (worker curUser userFollowMap userFansMap userStatMap err)
      (lock_order sc users) {| chan := errChan; IDMap := ∅ |} in
  match select sc (chan userList) all_done with
  | SelNone => Blocked
  | SelErr e => Returned (None, Some e)
  | SelFinished => Returned (Some (merge (IDMap userList) ids), None)
  end end end end end end.

(** [GetUserInfoByID]; indexing an empty slice panics. *)
Definition GetUserInfoByID (sc : Sched) (db : Store) (id : uint64)
  : Outcome (option UserInfo * error) :=
  match BatchGetUsers sc db id [id] with
  | Blocked => Blocked
  | Panicked => Panicked
  | Returned (userInfos, err) =>
      match err with
      | Some _ => Returned (None, err)
      | None =>
          match userInfos with
          | Some (info :: _) => Returned (info, None)
          | _ => Panicked
          end
      end
  end.

(** The words of the spec for [GetUserInfoByID]: the first and only
    element of the batch call for the single id when that call succeeds,
    its error when it fails. *)
Definition single_id_specialization (sc : Sched) (db : Store) (id : uint64)
  : Outcome (option UserInfo * error) :=
  match BatchGetUsers sc db id [id] with
  | Returned (_, Some e) => Returned (None, Some e)
  | Returned (Some [info], None) => Returned (info, None)
  | Returned (_, None) => Panicked
  | Blocked => Blocked
  | Panicked => Panicked
  end.

(** [err != nil]. *)
Definition notNil (err : error) : bool :=
  match err with
  | Some _ => true
  | None => false
  end.

(** The method [GetUserByPhone] of the service. *)
Definition GetUserByPhone (db : Store) (phone : Z) : UserBaseModel * error :=
  let '(userModel, err) := user.GetUserByPhone (userRepo srv) db phone in
  if notNil err || IsRecordNotFoundError err
  then (userModel,
        errors_Wrap err ("get user info err from db by phone: " ++ Itoa phone)%string)
  else (userModel, None).

(** [PhoneLogin].  The block of the [if] declares a [u] of its own, so the
    [u] that is signed after the block is the one [GetUserByPhone]
    returned. *)
Definition PhoneLogin (db : Store) (phone verifyCode : Z) : Store * (string * error) :=
  let '(u, err) := GetUserByPhone db phone in
  match err with
  | Some _ => (db, ("", errors_Wrap err "[login] get u info err"))
  | None =>
  let '(db, err) :=
    if (ID u =? 0)%N then
      let u := {| ID := 0%N; Username := Itoa phone; Password := ""; Email := "";
                  Phone := phone; CreatedAt := 0; UpdatedAt := 0 |} in
      let '(db, (id, err)) := user.Create (userRepo srv) db u in
      let u := setID u id in
      (db, err)
    else (db, err) in
  match err with
  | Some _ => (db, ("", errors_Wrap err "[login] create user err"))
  | None =>
  let '(tokenStr, err) := Sign {| UserID := ID u; ctx_Username := Username u |} in
  match err with
  | Some _ => (db, ("", errors_Wrap err "[login] gen token sign err"))
  | None => (db, (tokenStr, None))
  end end end.

End Service.

(** A signer for running the login: the token spells out the context it
    carries. *)
Definition memSign (c : TokenContext) : string * error :=
  ((ctx_Username c ++ "#" ++ Itoa (Z.of_N (UserID c)))%string, None).

(** ** The view of a record in a call of [BatchGetUsers] *)

(** The [UserInfo] a worker computes for the record [u]. *)
Definition viewOf (curUser : UserBaseModel)
    (userFollowMap : gmap uint64 UserFollowModel)
    (userFansMap : gmap uint64 UserFansModel)
    (userStatMap : gmap uint64 UserStatModel) (u : UserBaseModel) : UserInfo :=
  TransferUser
    {| CurUser := curUser; User := u; UserStat := userStatMap !! ID u;
       IsFollow := match userFollowMap !! ID u with Some _ => 1 | None => 0 end;
       IsFans := match userFansMap !! ID u with Some _ => 1 | None => 0 end |}.

(** The map the workers leave when each of them stores its view, in the
    order they took the mutex. *)
Definition collect (view : UserBaseModel → UserInfo) (us : list UserBaseModel)
    (m : gmap uint64 UserInfo) : gmap uint64 UserInfo :=
  foldl (λ m u, <[ID u := view u]> m) m us.

Section Lookups.

Variable srv : userService.
Variable db : Store.
Variable userID : uint64.
Variable userIDs : list uint64.

(** The values of the five lookups of a call. *)
Definition usersOf : list UserBaseModel :=
  fst (user.GetUsersByIds (userRepo srv) db userIDs).

Definition curUserOf : UserBaseModel :=
  fst (user.GetUserByID (userRepo srv) db userID).

Definition followMapOf : gmap uint64 UserFollowModel :=
  fst (user.GetFollowByUIds (userFollowRepo srv) db userID userIDs).

Definition fansMapOf : gmap uint64 UserFansModel :=
  fst (user.GetFansByUIds (userFollowRepo srv) db userID userIDs).

Definition statMapOf : gmap uint64 UserStatModel :=
  fst (user.GetUserStatByIDs (userStatRepo srv) db userIDs).

(** The view of a record in this call. *)
Definition viewFor (u : UserBaseModel) : UserInfo :=
  viewOf curUserOf followMapOf fansMapOf statMapOf u.

(** [o] is the entry for the id [id]: a view of a record with that id
    among the records the repository returned, and [nil] only when there
    is no such record. *)
Definition entryFor (id : uint64) (o : option UserInfo) : Prop :=
  (∀ info, o = Some info → ∃ u, u ∈ usersOf ∧ ID u = id ∧ info = viewFor u)
  ∧ ((∃ u, u ∈ usersOf ∧ ID u = id) → is_Some o).

End Lookups.

(** ** A store for the examples *)

Definition mkUser (id : uint64) (name : string) (phone : Z) : UserBaseModel :=
  {| ID := id; Username := name; Password := ""; Email := ""; Phone := phone;
     CreatedAt := 0; UpdatedAt := 0 |}.

(** Users 1 to 4; user 1 follows 2 and 3, user 3 follows 1 back, and user 4
    has no stat row. *)
Definition exStore : Store :=
  {| user_tbl := [mkUser 1%N "ann" 13800000001; mkUser 2%N "bob" 13800000002;
                  mkUser 3%N "cat" 13800000003; mkUser 4%N "dan" 13800000004];
     follow_tbl := {[ (1%N, 2%N) := FollowStatusNormal;
                      (1%N, 3%N) := FollowStatusNormal;
                      (3%N, 1%N) := FollowStatusNormal ]};
     fans_tbl := {[ (2%N, 1%N) := FollowStatusNormal;
                    (3%N, 1%N) := FollowStatusNormal;
                    (1%N, 3%N) := FollowStatusNormal ]};
     stat_tbl := {[ 1%N := {| FollowCount := 2; FollowerCount := 1 |};
                    2%N := {| FollowCount := 0; FollowerCount := 5 |};
                    3%N := {| FollowCount := 1; FollowerCount := 1 |} ]} |}.

(** The storage error injected in the examples. *)
Definition errDown : errv := ErrOther "connection refused".

(** A schedule in which the [select] takes [finished] whenever it can. *)
Definition finishedFirst : Sched := {| lock_order := id; finished_first := true |}.

(** A plan in which both relationship lookups fail. *)
Definition bothRelationsFail : Faults :=
  λ p, match p with
       | PGetFollowByUIds => Some errDown
       | PGetFansByUIds => Some (ErrOther "timeout")
       | _ => None
       end.

(** ** The rest of the service *)

(** The methods of the repositories that the remaining service methods
    call: the lookup by email of [user.BaseRepo] and the two listings of
    [user.FollowRepo], which take the user, the id to list below and the
    limit.  A listing returns a slice, which may be [nil] ([None]), and an
    error. *)
Module repo.

Record AccountOps : Type := {
  GetUserByEmail : Store → string → UserBaseModel * error
}.

Record ListOps : Type := {
  GetFollowingUserList :
    Store → uint64 → uint64 → Z → option (list UserFollowModel) * error;
  GetFollowerUserList :
    Store → uint64 → uint64 → Z → option (list UserFansModel) * error
}.

End repo.

Section Account.

Variable srv : userService.
Variable acct : repo.AccountOps.

(** [auth.Encrypt], [auth.Compare] and [token.Sign]. *)
Variable Encrypt : string → string * error.
Variable Compare : string → string → error.
Variable Sign : TokenContext → string * error.

(** [Register]. *)
Definition Register (db : Store) (username email password : string) : Store * error :=
  let '(pwd, err) := Encrypt password in
  match err with
  | Some _ => (db, errors_Wrap err "encrypt password err")
  | None =>
  let u := {| ID := 0%N; Username := username; Password := pwd; Email := email;
              Phone := 0; CreatedAt := 0; UpdatedAt := 0 |} in
  let '(db, (_, err)) := user.Create (userRepo srv) db u in
  match err with
  | Some _ => (db, errors_Wrap err "create user")
  | None => (db, None)
  end end.

(** The method [GetUserByEmail] of the service. *)
Definition GetUserByEmail (db : Store) (email : string) : UserBaseModel * error :=
  let '(userModel, err) := repo.GetUserByEmail acct db email in
  if notNil err || IsRecordNotFoundError err
  then (userModel,
        errors_Wrap err ("get user info err from db by email: " ++ email)%string)
  else (userModel, None).

(** The method [GetUserByID] of the service. *)
Definition GetUserByID (db : Store) (id : uint64) : UserBaseModel * error :=
  let '(userModel, err) := user.GetUserByID (userRepo srv) db id in
  match err with
  | Some _ =>
      (userModel,
       errors_Wrap err ("get user info err from db by id: " ++ Itoa (Z.of_N id))%string)
  | None => (userModel, None)
  end.

(** [EmailLogin]. *)
Definition EmailLogin (db : Store) (email password : string) : string * error :=
  let '(u, err) := GetUserByEmail db email in
  match err with
  | Some _ => ("", errors_Wrap err "get user info err by email")
  | None =>
  let err := Compare (Password u) password in
  match err with
  | Some _ => ("", errors_Wrap err "password compare err")
  | None =>
  let '(tokenStr, err) := Sign {| UserID := ID u; ctx_Username := Username u |} in
  match err with
  | Some _ => ("", errors_Wrap err "gen token sign err")
  | None => (tokenStr, None)
  end end end.

End Account.

(** [GetFollowUser]: the query of [IsFollowedUser], with its row and its
    error handed to the caller. *)
Definition GetFollowUser (g : Gorm) (db : Store) (userID followedUID : uint64)
  : UserFollowModel * error :=
  let '(userFollowModel, err) := FindUserFollow g db userID followedUID in
  (userFollowModel, err).

Section Listings.

Variable lists : repo.ListOps.

(** [GetFollowingUserList]: [nil] on an error, and otherwise the slice of
    the repository as it is. *)
Definition GetFollowingUserList (db : Store) (userID lastID : uint64) (limit : Z)
  : option (list UserFollowModel) * error :=
  let lastID := if (lastID =? 0)%N then MaxID else lastID in
  let '(userFollowList, err) := repo.GetFollowingUserList lists db userID lastID limit in
  match err with
  | Some _ => (None, err)
  | None => (userFollowList, None)
  end.

(** [GetFollowerUserList]. *)
Definition GetFollowerUserList (db : Store) (userID lastID : uint64) (limit : Z)
  : option (list UserFansModel) * error :=
  let lastID := if (lastID =? 0)%N then MaxID else lastID in
  let '(userFollowerList, err) := repo.GetFollowerUserList lists db userID lastID limit in
  match err with
  | Some _ => (None, err)
  | None => (userFollowerList, None)
  end.

End Listings.

(** Modelled from the spec: the query of [IsFollowedUser] is run by gorm,
    outside this file.  It reads the follow table: for a pair that has a
    row it fills the row, with its key and its status, and reports no
    error. *)
Definition FindReads (g : Gorm) : Prop :=
  ∀ db a b s, followStatus db a b = Some s →
    ∃ m, FindUserFollow g db a b = (m, None)
         ∧ (0 < follow_ID m)%N ∧ follow_Status m = s.

(** ** More parts for the examples *)

(** Modelled from the spec: the lookup by email, on the users table in
    memory; like the lookup by phone, an email nobody has gives the zero
    record. *)
Definition memAccountOps : repo.AccountOps := {|
  repo.GetUserByEmail st email :=
    match find (λ u, String.eqb (Email u) email) (user_tbl st) with
    | Some u => (u, None)
    | None => (zeroUser, None)
    end
|}.

(** Modelled from the spec: hashing and verification are opaque
    capabilities; here the hash marks the password and the comparison
    accepts the password the hash was made from. *)
Definition memEncrypt (password : string) : string * error :=
  (("hash:" ++ password)%string, None).

Definition memCompare (hashed password : string) : error :=
  if String.eqb hashed ("hash:" ++ password)%string
  then None
  else Some (ErrOther "hashedPassword is not the hash of the given password").

(** A hasher that fails, and a hasher that keeps the length of the
    password only. *)
Definition downEncrypt (password : string) : string * error := ("", Some errDown).

Definition lengthEncrypt (password : string) : string * error :=
  (Itoa (Z.of_nat (String.length password)), None).

(** A signer that fails. *)
Definition downSign (c : TokenContext) : string * error := ("", Some errDown).

(** Listings that echo the id they are asked to list below as the id of
    one row. *)
Definition echoListOps : repo.ListOps := {|
  repo.GetFollowingUserList _ userID lastID _ :=
    (Some [{| follow_ID := lastID; follow_UserID := userID; follow_FollowedUID := 0%N;
              follow_Status := FollowStatusNormal |}], None);
  repo.GetFollowerUserList _ userID lastID _ :=
    (Some [{| fans_ID := lastID; fans_UserID := userID; fans_FollowerUID := 0%N;
              fans_Status := FollowStatusNormal |}], None)
|}.

(** Listings that find nothing and answer with a [nil] slice and no
    error, and listings whose storage is down. *)
Definition nilListOps : repo.ListOps := {|
  repo.GetFollowingUserList _ _ _ _ := (None, None);
  repo.GetFollowerUserList _ _ _ _ := (None, None)
|}.

Definition downListOps : repo.ListOps := {|
  repo.GetFollowingUserList _ _ _ _ := (None, Some errDown);
  repo.GetFollowerUserList _ _ _ _ := (None, Some errDown)
|}.

(** The service in memory with a follow repository whose
    [CreateUserFollow] panics. *)
Definition followPanics : userService :=
  {| userRepo := memBaseRepo noFaults;
     userFollowRepo :=
       {| user.CreateUserFollow _ _ _ := Panic;
          user.CreateUserFans := user.CreateUserFans (memFollowRepo noFaults);
          user.UpdateUserFollowStatus :=
            user.UpdateUserFollowStatus (memFollowRepo noFaults);
          user.UpdateUserFansStatus := user.UpdateUserFansStatus (memFollowRepo noFaults);
          user.GetFollowByUIds := user.GetFollowByUIds (memFollowRepo noFaults);
          user.GetFansByUIds := user.GetFansByUIds (memFollowRepo noFaults) |};
     userStatRepo := memStatRepo noFaults |}.

(** A service whose batch lookup of users finds no record (the users are
    hidden from it) while the other lookups work on the store in memory. *)
Definition hiddenUsers : userService :=
  {| userRepo :=
       {| user.Create := user.Create (memBaseRepo noFaults);
          user.GetUserByID := user.GetUserByID (memBaseRepo noFaults);
          user.GetUsersByIds _ _ := ([], None);
          user.GetUserByPhone := user.GetUserByPhone (memBaseRepo noFaults) |};
     userFollowRepo := memFollowRepo noFaults;
     userStatRepo := memStatRepo noFaults |}.

(** A schedule in which the workers take the mutex in reverse order. *)
Definition reversed : Sched := {| lock_order := reverse; finished_first := false |}.

(** The plans in which only the stat lookup, and only the fans lookup,
    fails. *)
Definition statFails : Faults := failAt PGetUserStatByIDs errDown.

Definition fansFails : Faults := failAt PGetFansByUIds errDown.

(** The pair a request is about. *)
Definition op_pair (op : Op) : uint64 * uint64 :=
  match op with
  | Follow a b => (a, b)
  | Unfollow a b => (a, b)
  end.

Section LookupErrors.

Variable srv : userService.
Variable db : Store.
Variable userID : uint64.
Variable userIDs : list uint64.

(** The errors of the five lookups of a call of [BatchGetUsers]. *)
Definition usersErr : error :=
  snd (user.GetUsersByIds (userRepo srv) db userIDs).

Definition curUserErr : error :=
  snd (user.GetUserByID (userRepo srv) db userID).

Definition followErr : error :=
  snd (user.GetFollowByUIds (userFollowRepo srv) db userID userIDs).

Definition fansErr : error :=
  snd (user.GetFansByUIds (userFollowRepo srv) db userID userIDs).

Definition statErr : error :=
  snd (user.GetUserStatByIDs (userStatRepo srv) db userIDs).

(** The list a call returns when it returns one: the entries of the map
    the workers collected, in the order of the ids. *)
Definition mergedViews (sc : Sched) : list (option UserInfo) :=
  (λ id, collect (viewFor srv db userID userIDs)
           (lock_order sc (usersOf srv db userIDs)) ∅ !! id) <$> userIDs.

End LookupErrors.

(* ===================================================================== *)
(** * Theorems *)
(* ===================================================================== *)

(** ** Properties of the relationship transitions *)

Section TransitionFacts.

Variable g : Gorm.
Variable srv : userService.

(** A follow whose transaction is committed has run its four steps and its
    commit, and returns [nil]. *)
Lemma AddUserFollow_committed db a b :
  tx_state (tx_after (AddUserFollow g srv db a b)) = TxCommitted →
  ∃ w1 w2 w3 w4,
    follow_steps srv db a b w1 w2 w3 w4
    ∧ CommitError g w4 = None
    ∧ db_after (AddUserFollow g srv db a b) = w4
    ∧ ret (AddUserFollow g srv db a b) = None.
Proof.
  unfold AddUserFollow, follow_steps, exec, recovered, Begin, Commit; simpl.
  destruct (user.CreateUserFollow _ db a b) as [w1 [e1|] |] eqn:E1; simpl;
    try discriminate.
  destruct (user.CreateUserFans _ w1 b a) as [w2 [e2|] |] eqn:E2; simpl;
    try discriminate.
  destruct (user.IncrFollowCount _ w2 a 1) as [w3 [e3|] |] eqn:E3; simpl;
    try discriminate.
  destruct (user.IncrFollowerCount _ w3 b 1) as [w4 [e4|] |] eqn:E4; simpl;
    try discriminate.
  destruct (CommitError g w4) as [e5|] eqn:E5; simpl; [discriminate|].
  intros _. exists w1, w2, w3, w4. by rewrite E5.
Qed.

Lemma CancelUserFollow_committed db a b :
  tx_state (tx_after (CancelUserFollow g srv db a b)) = TxCommitted →
  ∃ w1 w2 w3 w4,
    unfollow_steps srv db a b w1 w2 w3 w4
    ∧ CommitError g w4 = None
    ∧ db_after (CancelUserFollow g srv db a b) = w4
    ∧ ret (CancelUserFollow g srv db a b) = None.
Proof.
  unfold CancelUserFollow, unfollow_steps, exec, recovered, Begin, Commit; simpl.
  destruct (user.UpdateUserFollowStatus _ db a b _) as [w1 [e1|] |] eqn:E1; simpl;
    try discriminate.
  destruct (user.UpdateUserFansStatus _ w1 b a _) as [w2 [e2|] |] eqn:E2; simpl;
    try discriminate.
  destruct (user.IncrFollowCount _ w2 a (-1)) as [w3 [e3|] |] eqn:E3; simpl;
    try discriminate.
  destruct (user.IncrFollowerCount _ w3 b (-1)) as [w4 [e4|] |] eqn:E4; simpl;
    try discriminate.
  destruct (CommitError g w4) as [e5|] eqn:E5; simpl; [discriminate|].
  intros _. exists w1, w2, w3, w4. by rewrite E5.
Qed.

(** A transition that returns [nil] has committed, or it has recovered a
    panic: then the transaction is rolled back and nothing is stored. *)
Lemma AddUserFollow_nil db a b :
  ret (AddUserFollow g srv db a b) = None →
  tx_state (tx_after (AddUserFollow g srv db a b)) = TxCommitted
  ∨ (tx_state (tx_after (AddUserFollow g srv db a b)) = TxRolledBack
     ∧ db_after (AddUserFollow g srv db a b) = db).
Proof.
  unfold AddUserFollow, exec, recovered, Begin, Commit; simpl.
  destruct (user.CreateUserFollow _ db a b) as [w1 [e1|] |]; simpl;
    [discriminate | | by right].
  destruct (user.CreateUserFans _ w1 b a) as [w2 [e2|] |]; simpl;
    [discriminate | | by right].
  destruct (user.IncrFollowCount _ w2 a 1) as [w3 [e3|] |]; simpl;
    [discriminate | | by right].
  destruct (user.IncrFollowerCount _ w3 b 1) as [w4 [e4|] |]; simpl;
    [discriminate | | by right].
  destruct (CommitError g w4) as [e5|]; simpl; [discriminate | by left].
Qed.

Lemma CancelUserFollow_nil db a b :
  ret (CancelUserFollow g srv db a b) = None →
  tx_state (tx_after (CancelUserFollow g srv db a b)) = TxCommitted
  ∨ (tx_state (tx_after (CancelUserFollow g srv db a b)) = TxRolledBack
     ∧ db_after (CancelUserFollow g srv db a b) = db).
Proof.
  unfold CancelUserFollow, exec, recovered, Begin, Commit; simpl.
  destruct (user.UpdateUserFollowStatus _ db a b _) as [w1 [e1|] |]; simpl;
    [discriminate | | by right].
  destruct (user.UpdateUserFansStatus _ w1 b a _) as [w2 [e2|] |]; simpl;
    [discriminate | | by right].
  destruct (user.IncrFollowCount _ w2 a (-1)) as [w3 [e3|] |]; simpl;
    [discriminate | | by right].
  destruct (user.IncrFollowerCount _ w3 b (-1)) as [w4 [e4|] |]; simpl;
    [discriminate | | by right].
  destruct (CommitError g w4) as [e5|]; simpl; [discriminate | by left].
Qed.

(** X1. Whatever step or commit fails, an unfollow reverts its steps: the
    committed store is the one before the call and the transaction is
    rolled back. *)
Lemma CancelUserFollow_reverts db a b :
  ret (CancelUserFollow g srv db a b) ≠ None →
  reverted db (CancelUserFollow g srv db a b).
Proof.
  unfold CancelUserFollow, reverted, exec, recovered, Begin, Commit; simpl.
  destruct (user.UpdateUserFollowStatus _ db a b _) as [w1 [e1|] |]; simpl; [done | | done].
  destruct (user.UpdateUserFansStatus _ w1 b a _) as [w2 [e2|] |]; simpl; [done | | done].
  destruct (user.IncrFollowCount _ w2 a (-1)) as [w3 [e3|] |]; simpl; [done | | done].
  destruct (user.IncrFollowerCount _ w3 b (-1)) as [w4 [e4|] |]; simpl; [done | | done].
  destruct (CommitError g w4) as [e5|]; simpl; done.
Qed.

(** X2. A follow that returns an error commits nothing, whichever step or
    the commit failed. *)
Lemma AddUserFollow_commits_nothing db a b :
  ret (AddUserFollow g srv db a b) ≠ None →
  db_after (AddUserFollow g srv db a b) = db.
Proof.
  unfold AddUserFollow, exec, recovered, Begin, Commit; simpl.
  destruct (user.CreateUserFollow _ db a b) as [w1 [e1|] |]; simpl; [done | | done].
  destruct (user.CreateUserFans _ w1 b a) as [w2 [e2|] |]; simpl; [done | | done].
  destruct (user.IncrFollowCount _ w2 a 1) as [w3 [e3|] |]; simpl; [done | | done].
  destruct (user.IncrFollowerCount _ w3 b 1) as [w4 [e4|] |]; simpl; [done | | done].
  destruct (CommitError g w4) as [e5|]; simpl; done.
Qed.

(** A follow whose first three steps succeed and whose fourth fails
    returns with the transaction still open on the three writes. *)
Lemma AddUserFollow_leaves_tx_open db a b w1 w2 w3 w4 e :
  user.CreateUserFollow (userFollowRepo srv) db a b = Ret w1 None →
  user.CreateUserFans (userFollowRepo srv) w1 b a = Ret w2 None →
  user.IncrFollowCount (userStatRepo srv) w2 a 1 = Ret w3 None →
  user.IncrFollowerCount (userStatRepo srv) w3 b 1 = Ret w4 (Some e) →
  AddUserFollow g srv db a b
  = {| db_after := db; tx_after := {| tx_work := w4; tx_state := TxActive |};
       ret := Some (Wrapped e "update user fans count err") |}.
Proof.
  intros E1 E2 E3 E4.
  unfold AddUserFollow, exec, Begin; simpl.
  rewrite E1; simpl. rewrite E2; simpl. rewrite E3; simpl. by rewrite E4.
Qed.

End TransitionFacts.

(** ** The repositories in memory meet the contracts *)

Lemma guarded_ok f p st upd st' :
  guarded f p st upd = Ret st' None → st' = upd.
Proof. unfold guarded. destruct (f p); by intros [= <-]. Qed.

Lemma followCount_withStat_insert st id s id' :
  followCount (withStat st (<[id := s]> (stat_tbl st))) id'
  = if decide (id = id') then FollowCount s else followCount st id'.
Proof.
  unfold followCount; simpl. rewrite lookup_insert. by case_decide.
Qed.

Lemma followerCount_withStat_insert st id s id' :
  followerCount (withStat st (<[id := s]> (stat_tbl st))) id'
  = if decide (id = id') then FollowerCount s else followerCount st id'.
Proof.
  unfold followerCount; simpl. rewrite lookup_insert. by case_decide.
Qed.

Lemma memService_contract f : RepoContract (memService f).
Proof.
  split; simpl.
  - intros st st' a b ->%guarded_ok. repeat split.
    + unfold followStatus; simpl. apply lookup_insert_eq.
    + intros c d Hne. unfold followStatus; simpl. by rewrite lookup_insert_ne.
  - intros st st' a b ->%guarded_ok. repeat split.
    + unfold fansStatus; simpl. apply lookup_insert_eq.
    + intros c d Hne. unfold fansStatus; simpl. by rewrite lookup_insert_ne.
  - intros st st' a b s ->%guarded_ok. repeat split.
    + unfold followStatus; simpl. intros [x Hx].
      by rewrite lookup_alter_eq, Hx.
    + intros c d Hne. unfold followStatus; simpl. by rewrite lookup_alter_ne.
  - intros st st' a b s ->%guarded_ok. repeat split.
    + unfold fansStatus; simpl. intros [x Hx].
      by rewrite lookup_alter_eq, Hx.
    + intros c d Hne. unfold fansStatus; simpl. by rewrite lookup_alter_ne.
  - intros st st' id d ->%guarded_ok. repeat split.
    + rewrite followCount_withStat_insert. by rewrite decide_True.
    + intros id' Hne. rewrite followCount_withStat_insert. by rewrite decide_False.
    + intros id'. rewrite followerCount_withStat_insert. by case_decide; subst.
  - intros st st' id d ->%guarded_ok. repeat split.
    + rewrite followerCount_withStat_insert. by rewrite decide_True.
    + intros id' Hne. rewrite followerCount_withStat_insert. by rewrite decide_False.
    + intros id'. rewrite followCount_withStat_insert. by case_decide; subst.
Qed.

(** ** Counters and edges across a successful transition *)

Section ContractFacts.

Variable g : Gorm.
Variable srv : userService.
Hypothesis contract : RepoContract srv.

Lemma follow_steps_counts db a b w1 w2 w3 w4 :
  follow_steps srv db a b w1 w2 w3 w4 →
  followCount w4 a = followCount db a + 1
  ∧ followerCount w4 b = followerCount db b + 1.
Proof.
  intros (E1 & E2 & E3 & E4).
  destruct (CreateUserFollow_ok _ contract _ _ _ _ E1) as (_ & _ & C1).
  destruct (CreateUserFans_ok _ contract _ _ _ _ E2) as (_ & _ & C2).
  destruct (IncrFollowCount_ok _ contract _ _ _ _ E3) as (I3 & _ & K3 & _).
  destruct (IncrFollowerCount_ok _ contract _ _ _ _ E4) as (I4 & _ & K4 & _).
  split.
  - rewrite K4, I3. f_equal. rewrite (proj1 (C2 a)). apply C1.
  - rewrite I4, K3. f_equal. rewrite (proj2 (C2 b)). apply C1.
Qed.

Lemma unfollow_steps_counts db a b w1 w2 w3 w4 :
  unfollow_steps srv db a b w1 w2 w3 w4 →
  followCount w4 a = followCount db a + -1
  ∧ followerCount w4 b = followerCount db b + -1.
Proof.
  intros (E1 & E2 & E3 & E4).
  destruct (UpdateUserFollowStatus_ok _ contract _ _ _ _ _ E1) as (_ & _ & C1).
  destruct (UpdateUserFansStatus_ok _ contract _ _ _ _ _ E2) as (_ & _ & C2).
  destruct (IncrFollowCount_ok _ contract _ _ _ _ E3) as (I3 & _ & K3 & _).
  destruct (IncrFollowerCount_ok _ contract _ _ _ _ E4) as (I4 & _ & K4 & _).
  split.
  - rewrite K4, I3. f_equal. rewrite (proj1 (C2 a)). apply C1.
  - rewrite I4, K3. f_equal. rewrite (proj2 (C2 b)). apply C1.
Qed.

(** After the four steps of a follow the edge and its fan projection are
    Normal and the rows of every other pair are as before. *)
Lemma follow_steps_edges db a b w1 w2 w3 w4 :
  follow_steps srv db a b w1 w2 w3 w4 →
  follow_set db w4 a b FollowStatusNormal ∧ fans_set db w4 b a FollowStatusNormal.
Proof.
  intros (E1 & E2 & E3 & E4).
  destruct (CreateUserFollow_ok _ contract _ _ _ _ E1) as ((F1 & O1) & N1 & _).
  destruct (CreateUserFans_ok _ contract _ _ _ _ E2) as ((F2 & O2) & N2 & _).
  destruct (IncrFollowCount_ok _ contract _ _ _ _ E3) as (_ & _ & _ & N3 & M3).
  destruct (IncrFollowerCount_ok _ contract _ _ _ _ E4) as (_ & _ & _ & N4 & M4).
  split; split.
  - by rewrite N4, N3, N2.
  - intros c d Hne. rewrite N4, N3, N2. by apply O1.
  - by rewrite M4, M3.
  - intros c d Hne. rewrite M4, M3, (O2 c d Hne). apply N1.
Qed.

Lemma unfollow_steps_edges db a b w1 w2 w3 w4 :
  unfollow_steps srv db a b w1 w2 w3 w4 →
  follow_upd db w4 a b FollowStatusDelete ∧ fans_upd db w4 b a FollowStatusDelete.
Proof.
  intros (E1 & E2 & E3 & E4).
  destruct (UpdateUserFollowStatus_ok _ contract _ _ _ _ _ E1) as ((F1 & O1) & N1 & _).
  destruct (UpdateUserFansStatus_ok _ contract _ _ _ _ _ E2) as ((F2 & O2) & N2 & _).
  destruct (IncrFollowCount_ok _ contract _ _ _ _ E3) as (_ & _ & _ & N3 & M3).
  destruct (IncrFollowerCount_ok _ contract _ _ _ _ E4) as (_ & _ & _ & N4 & M4).
  split; split.
  - intros Hs. rewrite N4, N3, N2. by apply F1.
  - intros c d Hne. rewrite N4, N3, N2. by apply O1.
  - intros Hs. rewrite M4, M3. apply F2. by rewrite N1.
  - intros c d Hne. rewrite M4, M3, (O2 c d Hne). apply N1.
Qed.

(** One successful request keeps the edge of every pair and its fan
    projection in agreement. *)
Lemma apply_op_consistent db op a b :
  edge_consistent db a b →
  ret (apply_op g srv db op) = None →
  edge_consistent (db_after (apply_op g srv db op)) a b.
Proof.
  intros Hc Hok. destruct op as [x y | x y]; simpl in *.
  - destruct (AddUserFollow_nil g srv db x y Hok) as [Hcm | [_ ->]]; [|done].
    destruct (AddUserFollow_committed g srv db x y Hcm)
      as (w1 & w2 & w3 & w4 & Hs & _ & -> & _).
    destruct (follow_steps_edges _ _ _ _ _ _ _ Hs) as ((F & FO) & (N & NO)).
    destruct (decide ((a, b) = (x, y))) as [[= -> ->] | Hne].
    + left. by split.
    + unfold edge_consistent. rewrite (FO a b Hne).
      rewrite (NO b a); [done | congruence].
  - destruct (CancelUserFollow_nil g srv db x y Hok) as [Hcm | [_ ->]]; [|done].
    destruct (CancelUserFollow_committed g srv db x y Hcm)
      as (w1 & w2 & w3 & w4 & Hs & _ & -> & _).
    destruct (unfollow_steps_edges _ _ _ _ _ _ _ Hs) as ((F & FO) & (N & NO)).
    destruct (decide ((a, b) = (x, y))) as [[= -> ->] | Hne].
    + right. destruct Hc as [[H1 H2] | [H1 H2]];
        (split; [apply F; rewrite H1 | apply N; rewrite H2]; eauto).
    + unfold edge_consistent. rewrite (FO a b Hne).
      rewrite (NO b a); [done | congruence].
Qed.

End ContractFacts.

(** ** The claims on the relationship transitions *)

(** C1. The claim is that every failing step of a follow or an unfollow
    leaves the call with an error and all of its steps reverted.  An
    unfollow does revert ([CancelUserFollow_reverts]), and a follow commits
    nothing ([AddUserFollow_commits_nothing]); but a follow whose fourth
    step, the followee's follower counter, fails returns the error without
    rolling back: on the empty store, for user 1 following user 2, the
    transaction is still open and holds the edge, the fan row and the
    follower's counter, while the unfollow under the same fault is rolled
    back. *)
Theorem AddUserFollow_fourth_step_not_reverted :
  let f := failAt PIncrFollowerCount errDown in
  let r := AddUserFollow (memGorm f) (memService f) emptyStore 1%N 2%N in
  ret r = Some (Wrapped errDown "update user fans count err")
  ∧ ¬ reverted emptyStore r
  ∧ tx_state (tx_after r) = TxActive
  ∧ followStatus (tx_work (tx_after r)) 1%N 2%N = Some FollowStatusNormal
  ∧ fansStatus (tx_work (tx_after r)) 2%N 1%N = Some FollowStatusNormal
  ∧ followCount (tx_work (tx_after r)) 1%N = 1
  ∧ reverted exStore (CancelUserFollow (memGorm f) (memService f) exStore 1%N 2%N).
Proof.
  cbv zeta. repeat split; try (vm_compute; reflexivity).
  intros [_ H]. vm_compute in H. discriminate H.
Qed.

(** The repository whose [CreateUserFollow] panics meets the contract: the
    contract speaks of the calls that return. *)
Lemma followPanics_contract : RepoContract followPanics.
Proof.
  destruct (memService_contract noFaults) as [H1 H2 H3 H4 H5 H6].
  split; [| exact H2 | exact H3 | exact H4 | exact H5 | exact H6].
  intros st st' a b H. discriminate H.
Qed.

(** C6, the claim as stated fails.  A follow in which a step panics is
    recovered: it returns [nil], like a follow that succeeds, but it has
    rolled back.  With a follow of 4 by 1 that panics and an unfollow of
    the pair that goes through, both calls return [nil] and both counters
    end one below their values before the follow. *)
Lemma nil_follow_then_unfollow_lowers_counts :
  RepoContract followPanics
  ∧ ret (AddUserFollow (memGorm noFaults) followPanics exStore 1%N 4%N) = None
  ∧ ret (CancelUserFollow (memGorm noFaults) followPanics
           (db_after (AddUserFollow (memGorm noFaults) followPanics exStore 1%N 4%N))
           1%N 4%N) = None
  ∧ followCount exStore 1%N = 2
  ∧ followCount
      (db_after (CancelUserFollow (memGorm noFaults) followPanics
         (db_after (AddUserFollow (memGorm noFaults) followPanics exStore 1%N 4%N))
         1%N 4%N)) 1%N = 1
  ∧ followerCount exStore 4%N = 0
  ∧ followerCount
      (db_after (CancelUserFollow (memGorm noFaults) followPanics
         (db_after (AddUserFollow (memGorm noFaults) followPanics exStore 1%N 4%N))
         1%N 4%N)) 4%N = -1.
Proof.
  split; [exact followPanics_contract|].
  repeat split; vm_compute; reflexivity.
Qed.

(** C6, amended.  A follow that commits, then an unfollow of the same pair
    that commits, leave the follower's following counter and the
    followee's follower counter at their values before the follow. *)
Theorem committed_follow_then_unfollow_restores_counts g srv db a b :
  RepoContract srv →
  tx_state (tx_after (AddUserFollow g srv db a b)) = TxCommitted →
  tx_state
    (tx_after (CancelUserFollow g srv (db_after (AddUserFollow g srv db a b)) a b))
  = TxCommitted →
  followCount
    (db_after (CancelUserFollow g srv (db_after (AddUserFollow g srv db a b)) a b)) a
  = followCount db a
  ∧ followerCount
      (db_after (CancelUserFollow g srv (db_after (AddUserFollow g srv db a b)) a b)) b
    = followerCount db b.
Proof.
  intros HC H1 H2.
  destruct (AddUserFollow_committed g srv db a b H1)
    as (w1 & w2 & w3 & w4 & Hs & _ & Hdb & _).
  rewrite Hdb in *.
  destruct (CancelUserFollow_committed g srv w4 a b H2)
    as (v1 & v2 & v3 & v4 & Ht & _ & -> & _).
  destruct (follow_steps_counts srv HC _ _ _ _ _ _ _ Hs) as [A1 A2].
  destruct (unfollow_steps_counts srv HC _ _ _ _ _ _ _ Ht) as [B1 B2].
  rewrite B1, B2, A1, A2. lia.
Qed.

Lemma committed_follow_then_unfollow_restores_counts_witness :
  followCount
    (db_after (CancelUserFollow (memGorm noFaults) (memService noFaults)
       (db_after (AddUserFollow (memGorm noFaults) (memService noFaults) exStore 1%N 4%N))
       1%N 4%N)) 1%N = 2
  ∧ followerCount
      (db_after (CancelUserFollow (memGorm noFaults) (memService noFaults)
         (db_after (AddUserFollow (memGorm noFaults) (memService noFaults) exStore 1%N 4%N))
         1%N 4%N)) 4%N = 0.
Proof.
  apply (committed_follow_then_unfollow_restores_counts (memGorm noFaults)
           (memService noFaults) exStore 1%N 4%N (memService_contract noFaults));
    vm_compute; reflexivity.
Defined.

(** C7. [IsFollowedUser] is a total function to [bool]; it answers [false]
    when the query reports an error and when the query found no row (the
    row is left at its zero value), alike. *)
Theorem IsFollowedUser_false_on_error_and_not_found g db userID followedUID :
  snd (FindUserFollow g db userID followedUID) ≠ None
  ∨ follow_ID (fst (FindUserFollow g db userID followedUID)) = 0%N →
  IsFollowedUser g db userID followedUID = false.
Proof.
  unfold IsFollowedUser.
  destruct (FindUserFollow g db userID followedUID) as [m [e|]]; simpl; [done|].
  intros [H | ->]; [done|]. reflexivity.
Qed.

Lemma IsFollowedUser_false_on_error_and_not_found_witness :
  IsFollowedUser (memGorm (failAt PFind errDown)) exStore 1%N 2%N = false
  ∧ IsFollowedUser (memGorm noFaults) exStore 2%N 1%N = false
  ∧ IsFollowedUser (memGorm noFaults) exStore 1%N 2%N = true.
Proof.
  split; [| split].
  - apply (IsFollowedUser_false_on_error_and_not_found
             (memGorm (failAt PFind errDown)) exStore 1%N 2%N).
    left. vm_compute. discriminate.
  - apply (IsFollowedUser_false_on_error_and_not_found (memGorm noFaults) exStore 2%N 1%N).
    right. vm_compute. reflexivity.
  - vm_compute. reflexivity.
Defined.

(** C8. Along every sequence of follow and unfollow requests that all
    succeed, started in a store where the edge from A to B and its fan
    projection are both Normal or both Deleted, they are both Normal or
    both Deleted after every request. *)
Theorem edge_and_fan_agree_after_every_operation g srv ops db tr a b :
  RepoContract srv →
  edge_consistent db a b →
  run_ops g srv db ops = Some tr →
  length tr = length ops ∧ Forall (λ st, edge_consistent st a b) tr.
Proof.
  intros HC. revert db tr.
  induction ops as [| op rest IH]; intros db tr Hc Hrun; simpl in Hrun.
  - injection Hrun as <-. by split.
  - destruct (ret (apply_op g srv db op)) as [e|] eqn:Hret; [discriminate|].
    destruct (run_ops g srv (db_after (apply_op g srv db op)) rest) as [tr'|] eqn:Hrest;
      [|discriminate].
    injection Hrun as <-.
    pose proof (apply_op_consistent g srv HC db op a b Hc Hret) as Hc'.
    destruct (IH _ _ Hc' Hrest) as [Hlen Hall].
    split; [simpl; by rewrite Hlen | by constructor].
Qed.

Lemma edge_and_fan_agree_after_every_operation_witness :
  ∃ tr,
    run_ops (memGorm noFaults) (memService noFaults) exStore
      [Unfollow 1%N 2%N; Follow 2%N 1%N; Follow 1%N 2%N; Unfollow 1%N 3%N] = Some tr
    ∧ length tr = 4%nat
    ∧ Forall (λ st, edge_consistent st 1%N 2%N) tr.
Proof.
  eexists. split; [vm_compute; reflexivity |].
  eapply (edge_and_fan_agree_after_every_operation (memGorm noFaults) (memService noFaults)
            [Unfollow 1%N 2%N; Follow 2%N 1%N; Follow 1%N 2%N; Unfollow 1%N 3%N]
            exStore _ 1%N 2%N (memService_contract noFaults)).
  - left. split; vm_compute; reflexivity.
  - vm_compute. reflexivity.
Defined.

(** ** Facts on the aggregation *)

Lemma merge_fmap (m : gmap uint64 UserInfo) (ids : list uint64) :
  merge m ids = (λ id, m !! id) <$> ids.
Proof.
  unfold merge.
  assert (H : ∀ acc : list (option UserInfo),
             foldl (λ infos id, infos ++ [m !! id]) acc ids
             = acc ++ ((λ id, m !! id) <$> ids)).
  { induction ids as [| x xs IH]; intros acc; simpl.
    - by rewrite app_nil_r.
    - rewrite IH. by rewrite <- app_assoc. }
  apply (H []).
Qed.

Lemma collect_is_Some_mono view us (m : gmap uint64 UserInfo) id :
  is_Some (m !! id) → is_Some (collect view us m !! id).
Proof.
  revert m. induction us as [| u us IH]; intros m Hm; simpl; [done|].
  apply IH. rewrite lookup_insert_is_Some. destruct (decide (ID u = id)); auto.
Qed.

Lemma collect_lookup_elem view us (m : gmap uint64 UserInfo) u :
  u ∈ us → is_Some (collect view us m !! ID u).
Proof.
  revert m. induction us as [| v us IH]; intros m Hu; [by apply elem_of_nil in Hu|].
  apply elem_of_cons in Hu as [-> | Hu]; simpl.
  - apply collect_is_Some_mono. rewrite lookup_insert_eq. eauto.
  - by apply IH.
Qed.

Lemma collect_lookup_Some view us (m : gmap uint64 UserInfo) id info :
  collect view us m !! id = Some info →
  m !! id = Some info ∨ ∃ u, u ∈ us ∧ ID u = id ∧ info = view u.
Proof.
  revert m. induction us as [| v us IH]; intros m H; simpl in H; [by left|].
  apply IH in H as [H | (u & Hu & Hid & Hinfo)].
  - apply lookup_insert_Some in H as [[Hid Hinfo] | [_ H]].
    + right. exists v. split; [apply elem_of_cons; by left | done].
    + by left.
  - right. exists u. split; [apply elem_of_cons; by right | done].
Qed.

Lemma run_workers_no_error cu fm fa sm us sh :
  run_workers (worker cu fm fa sm None) us sh
  = ({| chan := chan sh; IDMap := collect (viewOf cu fm fa sm) us (IDMap sh) |}, true).
Proof.
  revert sh. induction us as [| u us IH]; intros sh; simpl.
  - by destruct sh.
  - by rewrite IH.
Qed.

(** With the error of the stat lookup in [err] and [errChan] full, the
    first worker that takes the mutex waits on its send for ever. *)
Lemma run_workers_error_full cu fm fa sm e us sh :
  chan sh ≠ [] →
  run_workers (worker cu fm fa sm (Some e)) us sh
  = (sh, match us with [] => true | _ => false end).
Proof.
  intros Hne. destruct us as [| u us]; simpl; [done|].
  unfold worker, chan_send. by destruct (chan sh).
Qed.

(** A call that returns a list returns the merge of the map the workers
    collected. *)
Lemma BatchGetUsers_success srv sc db userID userIDs infos :
  BatchGetUsers srv sc db userID userIDs = Returned (Some infos, None) →
  infos = (λ id, collect (viewFor srv db userID userIDs)
                   (lock_order sc (usersOf srv db userIDs)) ∅ !! id) <$> userIDs.
Proof.
  unfold BatchGetUsers, viewFor, usersOf, curUserOf, followMapOf, fansMapOf, statMapOf.
  destruct (user.GetUsersByIds _ db userIDs) as [users [e1|]]; simpl; [discriminate|].
  destruct (user.GetUserByID _ db userID) as [cu [e2|]]; simpl; [discriminate|].
  destruct (user.GetFollowByUIds _ db userID userIDs) as [fm [e3|]];
    destruct (user.GetFansByUIds _ db userID userIDs) as [fa [e4|]];
    destruct (user.GetUserStatByIDs _ db userIDs) as [sm [e5|]];
    simpl; try discriminate;
    rewrite ?run_workers_no_error; simpl.
  - destruct (finished_first sc); [|discriminate].
    intros [= <-]. apply merge_fmap.
  - destruct (finished_first sc); [|discriminate].
    intros [= <-]. apply merge_fmap.
  - rewrite run_workers_error_full by done.
    destruct (lock_order sc users); simpl; [|discriminate].
    destruct (finished_first sc); [|discriminate].
    intros [= <-]. apply merge_fmap.
  - intros [= <-]. apply merge_fmap.
Qed.

(** X11. An error never comes with a list: whenever [BatchGetUsers]
    returns an error its list is [nil]. *)
Lemma BatchGetUsers_error_no_list srv sc db userID userIDs res e :
  BatchGetUsers srv sc db userID userIDs = Returned (res, Some e) → res = None.
Proof.
  unfold BatchGetUsers.
  destruct (user.GetUsersByIds _ db userIDs) as [users [e1|]]; simpl; [by intros [= <- _]|].
  destruct (user.GetUserByID _ db userID) as [cu [e2|]]; simpl; [by intros [= <- _]|].
  destruct (user.GetFollowByUIds _ db userID userIDs) as [fm [e3|]];
    destruct (user.GetFansByUIds _ db userID userIDs) as [fa [e4|]];
    destruct (user.GetUserStatByIDs _ db userIDs) as [sm [e5|]];
    simpl; try discriminate;
    match goal with
    | |- context [run_workers ?w ?us ?sh] => destruct (run_workers w us sh) as [ul dn]
    end;
    destruct (select sc (chan ul) dn); try discriminate; by intros [= <- _].
Qed.

(** X12. A failure of the lookup of the users ends the call, under every
    schedule, with that error wrapped and no list. *)
Lemma BatchGetUsers_first_lookup_fails srv sc db userID userIDs e :
  snd (user.GetUsersByIds (userRepo srv) db userIDs) = Some e →
  BatchGetUsers srv sc db userID userIDs
  = Returned (None, Some (Wrapped e "[user_service] batch get user err")).
Proof.
  unfold BatchGetUsers.
  destruct (user.GetUsersByIds _ db userIDs) as [users err]; simpl. by intros ->.
Qed.

(** A failure of the lookup of the requester, after the lookup of the
    users went well, ends the call with that error wrapped and no list. *)
Lemma BatchGetUsers_second_lookup_fails srv sc db userID userIDs e :
  snd (user.GetUsersByIds (userRepo srv) db userIDs) = None →
  snd (user.GetUserByID (userRepo srv) db userID) = Some e →
  BatchGetUsers srv sc db userID userIDs
  = Returned (None, Some (Wrapped e "[user_service] get one user err")).
Proof.
  unfold BatchGetUsers.
  destruct (user.GetUsersByIds _ db userIDs) as [users err]; simpl. intros ->.
  destruct (user.GetUserByID _ db userID) as [cu err]; simpl. by intros ->.
Qed.

(** [BatchGetUsers] does not panic, and it returns a list or an error. *)
Lemma BatchGetUsers_shape srv sc db userID userIDs :
  BatchGetUsers srv sc db userID userIDs ≠ Panicked
  ∧ BatchGetUsers srv sc db userID userIDs ≠ Returned (None, None).
Proof.
  unfold BatchGetUsers.
  destruct (user.GetUsersByIds _ db userIDs) as [users [e1|]]; simpl; [done|].
  destruct (user.GetUserByID _ db userID) as [cu [e2|]]; simpl; [done|].
  destruct (user.GetFollowByUIds _ db userID userIDs) as [fm [e3|]];
    destruct (user.GetFansByUIds _ db userID userIDs) as [fa [e4|]];
    destruct (user.GetUserStatByIDs _ db userIDs) as [sm [e5|]];
    simpl; try done;
    match goal with
    | |- context [run_workers ?w ?us ?sh] => destruct (run_workers w us sh) as [ul dn]
    end;
    by destruct (select sc (chan ul) dn).
Qed.

Lemma viewFor_entry srv sc db userID userIDs id info :
  collect (viewFor srv db userID userIDs)
    (lock_order sc (usersOf srv db userIDs)) ∅ !! id = Some info →
  ∃ u, u ∈ lock_order sc (usersOf srv db userIDs) ∧ ID u = id
       ∧ info = viewFor srv db userID userIDs u.
Proof.
  intros H. apply collect_lookup_Some in H as [H | H]; [|done].
  by rewrite lookup_empty in H.
Qed.

(** ** The claims on the aggregation *)

(** The empty list of ids gives the empty list of views. *)
Example BatchGetUsers_empty :
  BatchGetUsers (memService noFaults) inOrder exStore 1%N [] = Returned (Some [], None).
Proof. vm_compute. reflexivity. Qed.

(** The scenario of the spec: user 1 follows 2 and 3, the ids are 2, 3, 4;
    2 and 3 are marked as followed, 4 is not, and 4 has no stat. *)
Example BatchGetUsers_scenario :
  ∃ i2 i3 i4,
    BatchGetUsers (memService noFaults) inOrder exStore 1%N [2%N; 3%N; 4%N]
    = Returned (Some [Some i2; Some i3; Some i4], None)
    ∧ info_IsFollow i2 = 1 ∧ info_IsFollow i3 = 1 ∧ info_IsFollow i4 = 0
    ∧ info_Stat i2 = Some {| FollowCount := 0; FollowerCount := 5 |}
    ∧ info_Stat i4 = None.
Proof. do 3 eexists. split; [vm_compute; reflexivity|]. by repeat split. Qed.

(** C3. A call that succeeds returns a list as long as the list of ids,
    whatever ids it holds (none, or some more than once), and the entry at
    each position is the entry for the id at that position. *)
Theorem BatchGetUsers_output_follows_input srv sc db userID userIDs infos :
  fair sc →
  BatchGetUsers srv sc db userID userIDs = Returned (Some infos, None) →
  length infos = length userIDs
  ∧ ∀ i id, userIDs !! i = Some id →
      ∃ o, infos !! i = Some o ∧ entryFor srv db userID userIDs id o.
Proof.
  intros Hfair ->%BatchGetUsers_success. split; [by rewrite length_fmap|].
  intros i id Hi. rewrite list_lookup_fmap, Hi; simpl.
  eexists; split; [reflexivity|]. split.
  - intros info (u & Hu & Hid & Hinfo)%viewFor_entry.
    exists u. by rewrite <- (Hfair (usersOf srv db userIDs)).
  - intros (u & Hu & <-). apply collect_lookup_elem.
    by rewrite (Hfair (usersOf srv db userIDs)).
Qed.

Lemma BatchGetUsers_output_follows_input_witness :
  ∃ infos,
    BatchGetUsers (memService noFaults) inOrder exStore 1%N [2%N; 3%N; 5%N; 2%N]
    = Returned (Some infos, None)
    ∧ length infos = 4%nat
    ∧ ∀ i id, [2%N; 3%N; 5%N; 2%N] !! i = Some id →
        ∃ o, infos !! i = Some o
             ∧ entryFor (memService noFaults) exStore 1%N [2%N; 3%N; 5%N; 2%N] id o.
Proof.
  eexists. split; [vm_compute; reflexivity|].
  apply (BatchGetUsers_output_follows_input (memService noFaults) inOrder exStore 1%N
           [2%N; 3%N; 5%N; 2%N]).
  - intros us. reflexivity.
  - vm_compute. reflexivity.
Defined.

(** C10. In a call that succeeds, a position whose id has no record among
    the records the repository returned holds [nil]: the entry is kept,
    not filtered out, so the list is as long as the list of ids.  The
    positions of the users that exist are not affected by the missing
    ones: a position whose id has a record holds the view of a record with
    that id. *)
Theorem BatchGetUsers_keeps_nil_for_missing srv sc db userID userIDs infos :
  fair sc →
  BatchGetUsers srv sc db userID userIDs = Returned (Some infos, None) →
  length infos = length userIDs
  ∧ ∀ i id, userIDs !! i = Some id →
      ((∀ u, u ∈ usersOf srv db userIDs → ID u ≠ id) → infos !! i = Some None)
      ∧ ((∃ u, u ∈ usersOf srv db userIDs ∧ ID u = id) →
         ∃ info u, infos !! i = Some (Some info)
                   ∧ u ∈ usersOf srv db userIDs ∧ ID u = id
                   ∧ info = viewFor srv db userID userIDs u).
Proof.
  intros Hfair ->%BatchGetUsers_success. split; [by rewrite length_fmap|].
  intros i id Hi. rewrite list_lookup_fmap, Hi; simpl. split.
  - intros Hnone. f_equal.
    destruct (collect _ _ _ !! id) as [info|] eqn:E; [|done].
    apply viewFor_entry in E as (u & Hu & Hid & _).
    rewrite (Hfair (usersOf srv db userIDs)) in Hu. by destruct (Hnone u Hu).
  - intros (u & Hu & <-).
    destruct (collect_lookup_elem (viewFor srv db userID userIDs)
                (lock_order sc (usersOf srv db userIDs)) ∅ u) as [info Hinfo];
      [by rewrite (Hfair (usersOf srv db userIDs))|].
    rewrite Hinfo.
    apply viewFor_entry in Hinfo as (u' & Hu' & Hid & ->).
    rewrite (Hfair (usersOf srv db userIDs)) in Hu'.
    by exists (viewFor srv db userID userIDs u'), u'.
Qed.

Lemma BatchGetUsers_keeps_nil_for_missing_witness :
  ∃ infos,
    BatchGetUsers (memService noFaults) inOrder exStore 1%N [2%N; 5%N; 3%N]
    = Returned (Some infos, None)
    ∧ infos
      = [Some (viewFor (memService noFaults) exStore 1%N [2%N; 5%N; 3%N]
                 (mkUser 2%N "bob" 13800000002));
         None;
         Some (viewFor (memService noFaults) exStore 1%N [2%N; 5%N; 3%N]
                 (mkUser 3%N "cat" 13800000003))]
    ∧ length infos = 3%nat
    ∧ infos !! 1%nat = Some None
    ∧ (∃ info u, infos !! 0%nat = Some (Some info)
                 ∧ u ∈ usersOf (memService noFaults) exStore [2%N; 5%N; 3%N]
                 ∧ ID u = 2%N
                 ∧ info = viewFor (memService noFaults) exStore 1%N [2%N; 5%N; 3%N] u)
    ∧ (∃ info u, infos !! 2%nat = Some (Some info)
                 ∧ u ∈ usersOf (memService noFaults) exStore [2%N; 5%N; 3%N]
                 ∧ ID u = 3%N
                 ∧ info = viewFor (memService noFaults) exStore 1%N [2%N; 5%N; 3%N] u).
Proof.
  eexists. split; [vm_compute; reflexivity|]. split; [vm_compute; reflexivity|].
  destruct (BatchGetUsers_keeps_nil_for_missing (memService noFaults) inOrder exStore 1%N
              [2%N; 5%N; 3%N] _ (λ us, reflexivity _) eq_refl) as [Hlen Hpos].
  split; [exact Hlen|]. split; [| split].
  - apply (Hpos 1%nat 5%N eq_refl).
    intros u Hu Hid. vm_compute in Hu.
    repeat (apply elem_of_cons in Hu as [-> | Hu]; [discriminate Hid|]).
    by apply elem_of_nil in Hu.
  - apply (Hpos 0%nat 2%N eq_refl).
    exists (mkUser 2%N "bob" 13800000002). split; [|reflexivity].
    vm_compute. apply list_elem_of_here.
  - apply (Hpos 2%nat 3%N eq_refl).
    exists (mkUser 3%N "cat" 13800000003). split; [|reflexivity].
    vm_compute. apply list_elem_of_further, list_elem_of_here.
Defined.

(** C5. In every view a successful call returns, the follow flag is set
    exactly when the target's id is a key of the map [GetFollowByUIds]
    returned, and the fans flag exactly when it is a key of the map
    [GetFansByUIds] returned. *)
Theorem BatchGetUsers_flags_are_memberships srv sc db userID userIDs infos :
  BatchGetUsers srv sc db userID userIDs = Returned (Some infos, None) →
  ∀ i id info, userIDs !! i = Some id → infos !! i = Some (Some info) →
    ID (info_User info) = id
    ∧ (info_IsFollow info = 1 ↔ id ∈ dom (followMapOf srv db userID userIDs))
    ∧ (info_IsFollow info = 0 ↔ id ∉ dom (followMapOf srv db userID userIDs))
    ∧ (info_IsFans info = 1 ↔ id ∈ dom (fansMapOf srv db userID userIDs))
    ∧ (info_IsFans info = 0 ↔ id ∉ dom (fansMapOf srv db userID userIDs)).
Proof.
  intros ->%BatchGetUsers_success i id info Hi.
  rewrite list_lookup_fmap, Hi; simpl. intros [= H].
  apply viewFor_entry in H as (u & _ & <- & ->).
  unfold viewFor, viewOf; simpl.
  rewrite !elem_of_dom.
  destruct (followMapOf srv db userID userIDs !! ID u) as [x|];
    destruct (fansMapOf srv db userID userIDs !! ID u) as [y|];
    repeat split; intros; try done; try eauto;
    try (by exfalso; eauto); try (by apply is_Some_None in H).
Qed.

Lemma BatchGetUsers_flags_are_memberships_witness :
  ∃ infos info,
    BatchGetUsers (memService noFaults) inOrder exStore 1%N [2%N; 3%N; 4%N]
    = Returned (Some infos, None)
    ∧ infos !! 1%nat = Some (Some info)
    ∧ info_IsFollow info = 1 ∧ info_IsFans info = 1
    ∧ 3%N ∈ dom (followMapOf (memService noFaults) exStore 1%N [2%N; 3%N; 4%N])
    ∧ 3%N ∈ dom (fansMapOf (memService noFaults) exStore 1%N [2%N; 3%N; 4%N]).
Proof.
  eexists. eexists. split; [vm_compute; reflexivity|].
  split; [vm_compute; reflexivity|].
  split; [vm_compute; reflexivity|].
  split; [vm_compute; reflexivity|].
  pose proof (BatchGetUsers_flags_are_memberships (memService noFaults) inOrder exStore 1%N
                [2%N; 3%N; 4%N] _ eq_refl 1%nat 3%N _ eq_refl eq_refl)
    as (_ & [Hfollow _] & _ & [Hfans _] & _).
  split; [apply Hfollow | apply Hfans]; vm_compute; reflexivity.
Defined.

(** C9. [GetUserInfoByID] is the batch call for the single id: it returns
    the one element of the list when the batch call succeeds and the
    error of the batch call when that fails, and indexing the list never
    panics. *)
Theorem GetUserInfoByID_is_single_id_batch srv sc db id :
  GetUserInfoByID srv sc db id = single_id_specialization srv sc db id
  ∧ GetUserInfoByID srv sc db id ≠ Panicked.
Proof.
  pose proof (BatchGetUsers_shape srv sc db id [id]) as [Hp Hn].
  unfold GetUserInfoByID, single_id_specialization.
  destruct (BatchGetUsers srv sc db id [id]) as [[res [e|]] | |] eqn:E.
  - by destruct res as [[| x [| y l]] |].
  - destruct res as [infos|]; [|by destruct Hn].
    apply BatchGetUsers_success in E. simpl in E. by subst infos.
  - done.
  - by destruct Hp.
Qed.

(** C2. The claim is that a failing lookup always makes the call return
    the first error and no list.  The first two lookups do so
    ([BatchGetUsers_first_lookup_fails], [BatchGetUsers_second_lookup_fails])
    and an error never comes with a list ([BatchGetUsers_error_no_list]).
    But the errors of the other three lookups are sent by the calling
    goroutine itself on a channel that holds one value: when both
    relationship lookups fail the second send never proceeds and the call
    does not return, under any schedule; and when only the follow lookup
    fails, the [select] may find [finished] closed and return the whole
    list with no error, in which no target is marked as followed. *)
Theorem BatchGetUsers_error_policy_broken :
  (∀ sc, BatchGetUsers (memService bothRelationsFail) sc exStore 1%N [2%N; 3%N; 4%N]
         = Blocked)
  ∧ (∃ infos,
       BatchGetUsers (memService (failAt PGetFollowByUIds errDown)) finishedFirst exStore
         1%N [2%N; 3%N; 4%N] = Returned (Some infos, None)
       ∧ length infos = 3%nat
       ∧ Forall (λ o, ∃ info, o = Some info ∧ info_IsFollow info = 0) infos)
  ∧ BatchGetUsers (memService (failAt PGetFollowByUIds errDown)) inOrder exStore
      1%N [2%N; 3%N; 4%N] = Returned (None, Some errDown).
Proof.
  split; [| split].
  - intros sc. reflexivity.
  - eexists. split; [vm_compute; reflexivity|]. split; [reflexivity|].
    repeat constructor; eexists; split; reflexivity.
  - vm_compute. reflexivity.
Qed.

(** ** The claims on the login *)

(** A login with a phone whose lookup gives a record without id creates
    the user named after the phone, and signs the id and the name of the
    record the lookup gave. *)
Lemma PhoneLogin_unregistered srv Sign db phone code u0 db1 id :
  user.GetUserByPhone (userRepo srv) db phone = (u0, None) →
  ID u0 = 0%N →
  user.Create (userRepo srv) db (mkUser 0%N (Itoa phone) phone) = (db1, (id, None)) →
  PhoneLogin srv Sign db phone code
  = (db1,
     match Sign {| UserID := 0%N; ctx_Username := Username u0 |} with
     | (_, Some e) => ("", Some (Wrapped e "[login] gen token sign err"))
     | (tokenStr, None) => (tokenStr, None)
     end).
Proof.
  intros Hget Hid Hcreate. unfold PhoneLogin, GetUserByPhone.
  rewrite Hget; simpl. rewrite Hid; simpl.
  change {| ID := 0%N; Username := Itoa phone; Password := ""; Email := "";
            Phone := phone; CreatedAt := 0; UpdatedAt := 0 |}
    with (mkUser 0%N (Itoa phone) phone).
  rewrite Hcreate; simpl.
  by destruct (Sign _) as [tok [e|]].
Qed.

(** A login with a registered phone leaves the store as it is and signs
    the id and the name of the registered user. *)
Lemma PhoneLogin_registered srv Sign db phone code u :
  user.GetUserByPhone (userRepo srv) db phone = (u, None) →
  ID u ≠ 0%N →
  PhoneLogin srv Sign db phone code
  = (db,
     match Sign {| UserID := ID u; ctx_Username := Username u |} with
     | (_, Some e) => ("", Some (Wrapped e "[login] gen token sign err"))
     | (tokenStr, None) => (tokenStr, None)
     end).
Proof.
  intros Hget Hid. unfold PhoneLogin, GetUserByPhone.
  rewrite Hget; simpl.
  destruct (ID u =? 0)%N eqn:E; [by apply N.eqb_eq in E|].
  by destruct (Sign _) as [tok [e|]].
Qed.

Lemma find_snoc_fresh {A} (f : A → bool) (l : list A) (x : A) :
  (∀ y, y ∈ l → f y = false) → f x = true → find f (l ++ [x]) = Some x.
Proof.
  intros Hl Hx. induction l as [| y l IH]; simpl; [by rewrite Hx|].
  rewrite (Hl y) by (apply elem_of_cons; by left).
  apply IH. intros z Hz. apply Hl, elem_of_cons. by right.
Qed.

Lemma find_none {A} (f : A → bool) (l : list A) :
  (∀ y, y ∈ l → f y = false) → find f l = None.
Proof.
  intros Hl. induction l as [| y l IH]; simpl; [done|].
  rewrite (Hl y) by (apply elem_of_cons; by left).
  apply IH. intros z Hz. apply Hl, elem_of_cons. by right.
Qed.

(** X21. On the repository in memory: the first login of a phone nobody has
    adds one user, named after the phone, and a second login of that phone
    adds none. *)
Lemma PhoneLogin_registers_once Sign db phone code code' :
  (∀ u, u ∈ user_tbl db → Phone u ≠ phone) →
  let db1 := fst (PhoneLogin (memService noFaults) Sign db phone code) in
  user_tbl db1
  = user_tbl db ++ [mkUser (nextID (user_tbl db)) (Itoa phone) phone]
  ∧ fst (PhoneLogin (memService noFaults) Sign db1 phone code') = db1.
Proof.
  intros Hfresh db1.
  assert (Hnone : find (λ u, Phone u =? phone) (user_tbl db) = None).
  { apply find_none. intros u Hu. apply Z.eqb_neq. by apply Hfresh. }
  assert (H1 : db1 = withUsers db
                 (user_tbl db ++ [mkUser (nextID (user_tbl db)) (Itoa phone) phone])).
  { subst db1.
    rewrite (PhoneLogin_unregistered (memService noFaults) Sign db phone code zeroUser
               (withUsers db
                  (user_tbl db ++ [mkUser (nextID (user_tbl db)) (Itoa phone) phone]))
               (nextID (user_tbl db))); [done | | done | done].
    simpl. by rewrite Hnone. }
  split; [by rewrite H1|].
  rewrite (PhoneLogin_registered (memService noFaults) Sign db1 phone code'
             (mkUser (nextID (user_tbl db)) (Itoa phone) phone)); [done | |].
  - rewrite H1; simpl. rewrite find_snoc_fresh; [done | |].
    + intros u Hu. apply Z.eqb_neq. by apply Hfresh.
    + simpl. apply Z.eqb_refl.
  - simpl. unfold nextID. lia.
Qed.

(** C4. The claim is that the first login of a phone returns a token that
    carries the id and the name of the user it creates.  The login does
    create the user named after the phone, and a second login creates no
    other ([PhoneLogin_registers_once]); but the token of the first login
    is signed from the record the lookup returned, whose id is 0
    ([PhoneLogin_unregistered]).  With phone 13800138000 on the example
    store the new user has id 5 and the token carries id 0 and an empty
    name; only the second login returns the token of user 5. *)
Theorem PhoneLogin_first_token_is_not_the_new_user :
  let r := PhoneLogin (memService noFaults) memSign exStore 13800138000 1234 in
  user_tbl (fst r) = user_tbl exStore ++ [mkUser 5%N "13800138000" 13800138000]
  ∧ snd r = memSign {| UserID := 0%N; ctx_Username := "" |}
  ∧ snd r = ("#0", None)
  ∧ memSign {| UserID := 5%N; ctx_Username := "13800138000" |} = ("13800138000#5", None)
  ∧ PhoneLogin (memService noFaults) memSign (fst r) 13800138000 1234
    = (fst r, ("13800138000#5", None)).
Proof.
  cbv zeta. repeat split; vm_compute; reflexivity.
Qed.

(* ===================================================================== *)
(** * Further properties of the service *)
(* ===================================================================== *)

(** ** Transactions of the relationship transitions *)

Lemma CancelUserFollow_reverts_witness :
  reverted exStore
    (CancelUserFollow (memGorm (failAt PCommit errDown)) (memService (failAt PCommit errDown))
       exStore 1%N 2%N).
Proof.
  apply (CancelUserFollow_reverts (memGorm (failAt PCommit errDown))
           (memService (failAt PCommit errDown)) exStore 1%N 2%N).
  vm_compute. discriminate.
Defined.

Lemma AddUserFollow_commits_nothing_witness :
  db_after
    (AddUserFollow (memGorm (failAt PIncrFollowerCount errDown))
       (memService (failAt PIncrFollowerCount errDown)) exStore 1%N 4%N)
  = exStore.
Proof.
  apply (AddUserFollow_commits_nothing (memGorm (failAt PIncrFollowerCount errDown))
           (memService (failAt PIncrFollowerCount errDown)) exStore 1%N 4%N).
  vm_compute. discriminate.
Defined.

(** X3. A follow returns with its transaction still open exactly when its
    first three steps succeed and the fourth, the followee's follower
    counter, fails; in every other case the transaction is closed. *)
Theorem AddUserFollow_open_iff_fourth_fails g srv db a b :
  tx_state (tx_after (AddUserFollow g srv db a b)) = TxActive
  ↔ ∃ w1 w2 w3 w4 e,
      user.CreateUserFollow (userFollowRepo srv) db a b = Ret w1 None
      ∧ user.CreateUserFans (userFollowRepo srv) w1 b a = Ret w2 None
      ∧ user.IncrFollowCount (userStatRepo srv) w2 a 1 = Ret w3 None
      ∧ user.IncrFollowerCount (userStatRepo srv) w3 b 1 = Ret w4 (Some e).
Proof.
  unfold AddUserFollow, exec, recovered, Begin, Commit; simpl.
  destruct (user.CreateUserFollow _ db a b) as [w1 [e1|] |] eqn:E1; simpl;
    [split; [done|]; intros (? & ? & ? & ? & ? & ? & ? & ? & ?); congruence | |
     split; [done|]; intros (? & ? & ? & ? & ? & ? & ? & ? & ?); congruence].
  destruct (user.CreateUserFans _ w1 b a) as [w2 [e2|] |] eqn:E2; simpl;
    [split; [done|]; intros (? & ? & ? & ? & ? & ? & ? & ? & ?); congruence | |
     split; [done|]; intros (? & ? & ? & ? & ? & ? & ? & ? & ?); congruence].
  destruct (user.IncrFollowCount _ w2 a 1) as [w3 [e3|] |] eqn:E3; simpl;
    [split; [done|]; intros (? & ? & ? & ? & ? & ? & ? & ? & ?); congruence | |
     split; [done|]; intros (? & ? & ? & ? & ? & ? & ? & ? & ?); congruence].
  destruct (user.IncrFollowerCount _ w3 b 1) as [w4 [e4|] |] eqn:E4; simpl;
    [split; [|done]; intros _; by exists w1, w2, w3, w4, e4 | |
     split; [done|]; intros (? & ? & ? & ? & ? & ? & ? & ? & ?); congruence].
  destruct (CommitError g w4) as [e5|]; simpl;
    split; try done; intros (? & ? & ? & ? & ? & ? & ? & ? & ?); congruence.
Qed.

(** X4. A transition whose transaction is committed returns [nil], but a
    [nil] return does not tell that it is: the transaction is committed,
    or a panic of a step was recovered, and then the transaction is rolled
    back and the store is the one before the call.  An unfollow never
    leaves its transaction open. *)
Theorem transition_nil_return g srv db op :
  (tx_state (tx_after (apply_op g srv db op)) = TxCommitted →
   ret (apply_op g srv db op) = None)
  ∧ (ret (apply_op g srv db op) = None →
     tx_state (tx_after (apply_op g srv db op)) = TxCommitted
     ∨ (tx_state (tx_after (apply_op g srv db op)) = TxRolledBack
        ∧ db_after (apply_op g srv db op) = db))
  ∧ (∀ a b, tx_state (tx_after (CancelUserFollow g srv db a b)) ≠ TxActive).
Proof.
  split; [| split].
  - destruct op as [a b | a b]; simpl; intros H.
    + by destruct (AddUserFollow_committed g srv db a b H) as (? & ? & ? & ? & _ & _ & _ & ?).
    + by destruct (CancelUserFollow_committed g srv db a b H)
        as (? & ? & ? & ? & _ & _ & _ & ?).
  - destruct op as [a b | a b]; simpl.
    + apply AddUserFollow_nil.
    + apply CancelUserFollow_nil.
  - intros a b. unfold CancelUserFollow, exec, recovered, Begin, Commit; simpl.
    destruct (user.UpdateUserFollowStatus _ db a b _) as [w1 [e1|] |]; simpl; try done.
    destruct (user.UpdateUserFansStatus _ w1 b a _) as [w2 [e2|] |]; simpl; try done.
    destruct (user.IncrFollowCount _ w2 a (-1)) as [w3 [e3|] |]; simpl; try done.
    destruct (user.IncrFollowerCount _ w3 b (-1)) as [w4 [e4|] |]; simpl; try done.
    by destruct (CommitError g w4) as [e5|].
Qed.

Lemma transition_nil_return_witness :
  ret (apply_op (memGorm noFaults) followPanics exStore (Follow 1%N 4%N)) = None
  ∧ tx_state (tx_after (apply_op (memGorm noFaults) followPanics exStore (Follow 1%N 4%N)))
    = TxRolledBack
  ∧ ret (apply_op (memGorm noFaults) (memService noFaults) exStore (Follow 1%N 4%N))
    = None.
Proof.
  destruct (transition_nil_return (memGorm noFaults) followPanics exStore (Follow 1%N 4%N))
    as (_ & H2 & _).
  destruct (transition_nil_return (memGorm noFaults) (memService noFaults) exStore
              (Follow 1%N 4%N)) as (H1 & _ & _).
  split; [vm_compute; reflexivity|]. split.
  - destruct H2 as [H | [H _]]; [vm_compute; reflexivity | | exact H].
    vm_compute in H. discriminate H.
  - apply H1. vm_compute. reflexivity.
Defined.

(** ** What a committed transition changes *)

Section FrameFacts.

Variable srv : userService.
Hypothesis contract : RepoContract srv.

Lemma follow_steps_other_counts db a b w1 w2 w3 w4 :
  follow_steps srv db a b w1 w2 w3 w4 →
  (∀ c, c ≠ a → followCount w4 c = followCount db c)
  ∧ (∀ c, c ≠ b → followerCount w4 c = followerCount db c).
Proof.
  intros (E1 & E2 & E3 & E4).
  destruct (CreateUserFollow_ok _ contract _ _ _ _ E1) as (_ & _ & C1).
  destruct (CreateUserFans_ok _ contract _ _ _ _ E2) as (_ & _ & C2).
  destruct (IncrFollowCount_ok _ contract _ _ _ _ E3) as (_ & O3 & K3 & _).
  destruct (IncrFollowerCount_ok _ contract _ _ _ _ E4) as (_ & O4 & K4 & _).
  split; intros c Hc.
  - rewrite K4, (O3 c Hc), (proj1 (C2 c)). apply C1.
  - rewrite (O4 c Hc), K3, (proj2 (C2 c)). apply C1.
Qed.

Lemma unfollow_steps_other_counts db a b w1 w2 w3 w4 :
  unfollow_steps srv db a b w1 w2 w3 w4 →
  (∀ c, c ≠ a → followCount w4 c = followCount db c)
  ∧ (∀ c, c ≠ b → followerCount w4 c = followerCount db c).
Proof.
  intros (E1 & E2 & E3 & E4).
  destruct (UpdateUserFollowStatus_ok _ contract _ _ _ _ _ E1) as (_ & _ & C1).
  destruct (UpdateUserFansStatus_ok _ contract _ _ _ _ _ E2) as (_ & _ & C2).
  destruct (IncrFollowCount_ok _ contract _ _ _ _ E3) as (_ & O3 & K3 & _).
  destruct (IncrFollowerCount_ok _ contract _ _ _ _ E4) as (_ & O4 & K4 & _).
  split; intros c Hc.
  - rewrite K4, (O3 c Hc), (proj1 (C2 c)). apply C1.
  - rewrite (O4 c Hc), K3, (proj2 (C2 c)). apply C1.
Qed.

End FrameFacts.

(** X5. After a follow whose transaction is committed, the committed store
    has the edge and its fan projection Normal, and the follower's
    following counter and the followee's follower counter one higher than
    before. *)
Theorem AddUserFollow_postcondition g srv db a b :
  RepoContract srv →
  tx_state (tx_after (AddUserFollow g srv db a b)) = TxCommitted →
  followStatus (db_after (AddUserFollow g srv db a b)) a b = Some FollowStatusNormal
  ∧ fansStatus (db_after (AddUserFollow g srv db a b)) b a = Some FollowStatusNormal
  ∧ followCount (db_after (AddUserFollow g srv db a b)) a = followCount db a + 1
  ∧ followerCount (db_after (AddUserFollow g srv db a b)) b = followerCount db b + 1.
Proof.
  intros HC Hok.
  destruct (AddUserFollow_committed g srv db a b Hok)
    as (w1 & w2 & w3 & w4 & Hs & _ & -> & _).
  destruct (follow_steps_edges srv HC _ _ _ _ _ _ _ Hs) as ((F & _) & (N & _)).
  destruct (follow_steps_counts srv HC _ _ _ _ _ _ _ Hs) as [A1 A2].
  done.
Qed.

Lemma AddUserFollow_postcondition_witness :
  followStatus
    (db_after (AddUserFollow (memGorm noFaults) (memService noFaults) exStore 2%N 4%N))
    2%N 4%N = Some FollowStatusNormal
  ∧ fansStatus
      (db_after (AddUserFollow (memGorm noFaults) (memService noFaults) exStore 2%N 4%N))
      4%N 2%N = Some FollowStatusNormal
  ∧ followCount
      (db_after (AddUserFollow (memGorm noFaults) (memService noFaults) exStore 2%N 4%N))
      2%N = 0 + 1
  ∧ followerCount
      (db_after (AddUserFollow (memGorm noFaults) (memService noFaults) exStore 2%N 4%N))
      4%N = 0 + 1.
Proof.
  apply (AddUserFollow_postcondition (memGorm noFaults) (memService noFaults) exStore
           2%N 4%N (memService_contract noFaults)).
  vm_compute. reflexivity.
Defined.

(** X6. After an unfollow whose transaction is committed, the edge and its
    fan projection are Deleted when they had a row, and both counters are
    one lower than before, whether or not the pair had an edge: nothing
    keeps a counter from going below zero. *)
Theorem CancelUserFollow_postcondition g srv db a b :
  RepoContract srv →
  tx_state (tx_after (CancelUserFollow g srv db a b)) = TxCommitted →
  (is_Some (followStatus db a b) →
   followStatus (db_after (CancelUserFollow g srv db a b)) a b = Some FollowStatusDelete)
  ∧ (is_Some (fansStatus db b a) →
     fansStatus (db_after (CancelUserFollow g srv db a b)) b a = Some FollowStatusDelete)
  ∧ followCount (db_after (CancelUserFollow g srv db a b)) a = followCount db a - 1
  ∧ followerCount (db_after (CancelUserFollow g srv db a b)) b = followerCount db b - 1.
Proof.
  intros HC Hok.
  destruct (CancelUserFollow_committed g srv db a b Hok)
    as (w1 & w2 & w3 & w4 & Hs & _ & -> & _).
  destruct (unfollow_steps_edges srv HC _ _ _ _ _ _ _ Hs) as ((F & _) & (N & _)).
  destruct (unfollow_steps_counts srv HC _ _ _ _ _ _ _ Hs) as [A1 A2].
  repeat split; [done | done | lia | lia].
Qed.

Lemma CancelUserFollow_postcondition_witness :
  followCount
    (db_after (CancelUserFollow (memGorm noFaults) (memService noFaults) exStore 2%N 4%N))
    2%N = 0 - 1
  ∧ followerCount
      (db_after (CancelUserFollow (memGorm noFaults) (memService noFaults) exStore 2%N 4%N))
      4%N = 0 - 1
  ∧ followStatus
      (db_after (CancelUserFollow (memGorm noFaults) (memService noFaults) exStore 1%N 2%N))
      1%N 2%N = Some FollowStatusDelete.
Proof.
  destruct (CancelUserFollow_postcondition (memGorm noFaults) (memService noFaults) exStore
              2%N 4%N (memService_contract noFaults) eq_refl) as (_ & _ & H1 & H2).
  destruct (CancelUserFollow_postcondition (memGorm noFaults) (memService noFaults) exStore
              1%N 2%N (memService_contract noFaults) eq_refl) as (H3 & _).
  split; [exact H1 | split; [exact H2 | apply H3]].
  vm_compute. eauto.
Defined.

(** X7. A follow or an unfollow of a pair that succeeds leaves alone the
    edges and fan rows of every other pair, the following counter of
    every user but the follower, and the follower counter of every user
    but the followee. *)
Theorem transition_frame g srv db op :
  RepoContract srv →
  ret (apply_op g srv db op) = None →
  (∀ c d, (c, d) ≠ op_pair op →
     followStatus (db_after (apply_op g srv db op)) c d = followStatus db c d)
  ∧ (∀ c d, (d, c) ≠ op_pair op →
       fansStatus (db_after (apply_op g srv db op)) c d = fansStatus db c d)
  ∧ (∀ c, c ≠ fst (op_pair op) →
       followCount (db_after (apply_op g srv db op)) c = followCount db c)
  ∧ (∀ c, c ≠ snd (op_pair op) →
       followerCount (db_after (apply_op g srv db op)) c = followerCount db c).
Proof.
  intros HC Hok. destruct op as [a b | a b]; simpl in *.
  - destruct (AddUserFollow_nil g srv db a b Hok) as [Hcm | [_ ->]]; [|done].
    destruct (AddUserFollow_committed g srv db a b Hcm)
      as (w1 & w2 & w3 & w4 & Hs & _ & -> & _).
    destruct (follow_steps_edges srv HC _ _ _ _ _ _ _ Hs) as ((_ & FO) & (_ & NO)).
    destruct (follow_steps_other_counts srv HC _ _ _ _ _ _ _ Hs) as [A1 A2].
    repeat split; [done | | done | done].
    intros c d Hne. apply NO. congruence.
  - destruct (CancelUserFollow_nil g srv db a b Hok) as [Hcm | [_ ->]]; [|done].
    destruct (CancelUserFollow_committed g srv db a b Hcm)
      as (w1 & w2 & w3 & w4 & Hs & _ & -> & _).
    destruct (unfollow_steps_edges srv HC _ _ _ _ _ _ _ Hs) as ((_ & FO) & (_ & NO)).
    destruct (unfollow_steps_other_counts srv HC _ _ _ _ _ _ _ Hs) as [A1 A2].
    repeat split; [done | | done | done].
    intros c d Hne. apply NO. congruence.
Qed.

Lemma transition_frame_witness :
  followStatus
    (db_after (apply_op (memGorm noFaults) (memService noFaults) exStore (Unfollow 1%N 2%N)))
    1%N 3%N = Some FollowStatusNormal
  ∧ followerCount
      (db_after (apply_op (memGorm noFaults) (memService noFaults) exStore (Unfollow 1%N 2%N)))
      3%N = 1.
Proof.
  destruct (transition_frame (memGorm noFaults) (memService noFaults) exStore
              (Unfollow 1%N 2%N) (memService_contract noFaults) eq_refl)
    as (H1 & _ & _ & H4).
  split.
  - rewrite (H1 1%N 3%N); [vm_compute; reflexivity | simpl; congruence].
  - rewrite (H4 3%N); [vm_compute; reflexivity | simpl; congruence].
Defined.

(** X8. A follow is not idempotent: two follows of the same pair whose
    transactions are both committed raise each of the two counters by
    two. *)
Theorem follow_twice_counts_twice g srv db a b :
  RepoContract srv →
  tx_state (tx_after (AddUserFollow g srv db a b)) = TxCommitted →
  tx_state (tx_after (AddUserFollow g srv (db_after (AddUserFollow g srv db a b)) a b))
  = TxCommitted →
  followCount
    (db_after (AddUserFollow g srv (db_after (AddUserFollow g srv db a b)) a b)) a
  = followCount db a + 2
  ∧ followerCount
      (db_after (AddUserFollow g srv (db_after (AddUserFollow g srv db a b)) a b)) b
    = followerCount db b + 2.
Proof.
  intros HC H1 H2.
  destruct (AddUserFollow_committed g srv db a b H1)
    as (w1 & w2 & w3 & w4 & Hs & _ & Hdb & _).
  rewrite Hdb in *.
  destruct (AddUserFollow_committed g srv w4 a b H2)
    as (v1 & v2 & v3 & v4 & Ht & _ & -> & _).
  destruct (follow_steps_counts srv HC _ _ _ _ _ _ _ Hs) as [A1 A2].
  destruct (follow_steps_counts srv HC _ _ _ _ _ _ _ Ht) as [B1 B2].
  rewrite B1, B2, A1, A2. lia.
Qed.

Lemma follow_twice_counts_twice_witness :
  followCount
    (db_after (AddUserFollow (memGorm noFaults) (memService noFaults)
       (db_after (AddUserFollow (memGorm noFaults) (memService noFaults) exStore 1%N 2%N))
       1%N 2%N)) 1%N = 2 + 2
  ∧ followerCount
      (db_after (AddUserFollow (memGorm noFaults) (memService noFaults)
         (db_after (AddUserFollow (memGorm noFaults) (memService noFaults) exStore 1%N 2%N))
         1%N 2%N)) 2%N = 5 + 2.
Proof.
  apply (follow_twice_counts_twice (memGorm noFaults) (memService noFaults) exStore
           1%N 2%N (memService_contract noFaults)); vm_compute; reflexivity.
Defined.

(** ** The follow query *)

Lemma memGorm_reads : FindReads (memGorm noFaults).
Proof.
  intros db a b s Hs. unfold followStatus in Hs. simpl. rewrite Hs.
  eexists. split; [reflexivity|]. by split.
Qed.

(** X9. [IsFollowedUser] answers [true] exactly when the query of
    [GetFollowUser] reports no error and gives a row with an id above zero
    and the Normal status; a row that is Deleted counts as not followed. *)
Theorem IsFollowedUser_true_iff g db userID followedUID :
  IsFollowedUser g db userID followedUID = true
  ↔ ∃ m, GetFollowUser g db userID followedUID = (m, None)
         ∧ (0 < follow_ID m)%N ∧ follow_Status m = FollowStatusNormal.
Proof.
  unfold IsFollowedUser, GetFollowUser.
  destruct (FindUserFollow g db userID followedUID) as [m [e|]]; simpl.
  - split; [done|]. by intros (? & [=] & _).
  - destruct (0 <? follow_ID m)%N eqn:E1; simpl.
    + destruct (follow_Status m =? FollowStatusNormal) eqn:E2.
      * split; [|done]. intros _. exists m.
        apply N.ltb_lt in E1. apply Z.eqb_eq in E2. done.
      * split; [done|]. intros (? & [= <-] & _ & H). apply Z.eqb_neq in E2. done.
    + split; [done|]. intros (? & [= <-] & H & _). apply N.ltb_ge in E1. lia.
Qed.

(** X10. With a query that reads the follow table: after a follow whose
    transaction is committed the pair counts as followed, and after an
    unfollow of a pair with an edge whose transaction is committed it does
    not. *)
Theorem IsFollowedUser_after_transition g srv db a b :
  FindReads g →
  RepoContract srv →
  (tx_state (tx_after (AddUserFollow g srv db a b)) = TxCommitted →
   IsFollowedUser g (db_after (AddUserFollow g srv db a b)) a b = true)
  ∧ (is_Some (followStatus db a b) →
     tx_state (tx_after (CancelUserFollow g srv db a b)) = TxCommitted →
     IsFollowedUser g (db_after (CancelUserFollow g srv db a b)) a b = false).
Proof.
  intros HR HC. split.
  - intros Hok.
    destruct (AddUserFollow_committed g srv db a b Hok)
      as (w1 & w2 & w3 & w4 & Hs & _ & -> & _).
    destruct (follow_steps_edges srv HC _ _ _ _ _ _ _ Hs) as ((F & _) & _).
    destruct (HR _ _ _ _ F) as (m & Hm & Hid & Hst).
    unfold IsFollowedUser. rewrite Hm, Hst.
    apply N.ltb_lt in Hid. by rewrite Hid.
  - intros Hrow Hok.
    destruct (CancelUserFollow_committed g srv db a b Hok)
      as (w1 & w2 & w3 & w4 & Hs & _ & -> & _).
    destruct (unfollow_steps_edges srv HC _ _ _ _ _ _ _ Hs) as ((F & _) & _).
    destruct (HR _ _ _ _ (F Hrow)) as (m & Hm & Hid & Hst).
    unfold IsFollowedUser. rewrite Hm, Hst.
    apply N.ltb_lt in Hid. by rewrite Hid.
Qed.

Lemma IsFollowedUser_after_transition_witness :
  IsFollowedUser (memGorm noFaults)
    (db_after (AddUserFollow (memGorm noFaults) (memService noFaults) exStore 2%N 4%N))
    2%N 4%N = true
  ∧ IsFollowedUser (memGorm noFaults)
      (db_after (CancelUserFollow (memGorm noFaults) (memService noFaults) exStore 1%N 2%N))
      1%N 2%N = false.
Proof.
  destruct (IsFollowedUser_after_transition (memGorm noFaults) (memService noFaults)
              exStore 2%N 4%N memGorm_reads (memService_contract noFaults)) as [H1 _].
  destruct (IsFollowedUser_after_transition (memGorm noFaults) (memService noFaults)
              exStore 1%N 2%N memGorm_reads (memService_contract noFaults)) as [_ H2].
  split; [apply H1 | apply H2]; vm_compute; eauto.
Defined.

(** ** The outcomes of the aggregation *)

Lemma BatchGetUsers_error_no_list_witness :
  BatchGetUsers (memService statFails) inOrder exStore 1%N [2%N; 3%N]
  = Returned (None, Some errDown)
  ∧ (None : option (list (option UserInfo))) = None.
Proof.
  split; [vm_compute; reflexivity|].
  apply (BatchGetUsers_error_no_list (memService statFails) inOrder exStore 1%N
           [2%N; 3%N] None errDown).
  vm_compute. reflexivity.
Defined.

Lemma BatchGetUsers_first_lookup_fails_witness :
  BatchGetUsers (memService (failAt PGetUsersByIds errDown)) finishedFirst exStore 1%N
    [2%N; 3%N]
  = Returned (None, Some (Wrapped errDown "[user_service] batch get user err")).
Proof.
  apply (BatchGetUsers_first_lookup_fails (memService (failAt PGetUsersByIds errDown))
           finishedFirst exStore 1%N [2%N; 3%N] errDown).
  vm_compute. reflexivity.
Defined.

(** X13. When none of the five lookups fails, the call returns under every
    schedule, with no error and the merged list. *)
Theorem BatchGetUsers_no_failure srv sc db userID userIDs :
  usersErr srv db userIDs = None →
  curUserErr srv db userID = None →
  followErr srv db userID userIDs = None →
  fansErr srv db userID userIDs = None →
  statErr srv db userIDs = None →
  BatchGetUsers srv sc db userID userIDs
  = Returned (Some (mergedViews srv db userID userIDs sc), None).
Proof.
  unfold usersErr, curUserErr, followErr, fansErr, statErr, mergedViews,
    BatchGetUsers, viewFor, usersOf, curUserOf, followMapOf, fansMapOf, statMapOf.
  destruct (user.GetUsersByIds _ db userIDs) as [users e1]; simpl. intros ->.
  destruct (user.GetUserByID _ db userID) as [cu e2]; simpl. intros ->.
  destruct (user.GetFollowByUIds _ db userID userIDs) as [fm e3]; simpl. intros ->.
  destruct (user.GetFansByUIds _ db userID userIDs) as [fa e4]; simpl. intros ->.
  destruct (user.GetUserStatByIDs _ db userIDs) as [sm e5]; simpl. intros ->.
  simpl. rewrite run_workers_no_error; simpl. by rewrite merge_fmap.
Qed.

Lemma BatchGetUsers_no_failure_witness :
  BatchGetUsers (memService noFaults) reversed exStore 1%N [3%N; 3%N; 7%N]
  = Returned (Some (mergedViews (memService noFaults) exStore 1%N [3%N; 3%N; 7%N] reversed),
              None).
Proof.
  apply (BatchGetUsers_no_failure (memService noFaults) reversed exStore 1%N
           [3%N; 3%N; 7%N]); vm_compute; reflexivity.
Defined.

(** X14. When only the lookup of the stats fails and the repository
    returned at least one user, the call returns that error, unwrapped,
    and no list, under every schedule: the first worker waits on the full
    channel, so [finished] cannot be closed before the [select]. *)
Theorem BatchGetUsers_stat_failure srv sc db userID userIDs e :
  fair sc →
  usersErr srv db userIDs = None →
  curUserErr srv db userID = None →
  followErr srv db userID userIDs = None →
  fansErr srv db userID userIDs = None →
  statErr srv db userIDs = Some e →
  usersOf srv db userIDs ≠ [] →
  BatchGetUsers srv sc db userID userIDs = Returned (None, Some e).
Proof.
  unfold usersErr, curUserErr, followErr, fansErr, statErr, BatchGetUsers, usersOf.
  intros Hfair.
  destruct (user.GetUsersByIds _ db userIDs) as [users e1]; simpl. intros ->.
  destruct (user.GetUserByID _ db userID) as [cu e2]; simpl. intros ->.
  destruct (user.GetFollowByUIds _ db userID userIDs) as [fm e3]; simpl. intros ->.
  destruct (user.GetFansByUIds _ db userID userIDs) as [fa e4]; simpl. intros ->.
  destruct (user.GetUserStatByIDs _ db userIDs) as [sm e5]; simpl. intros -> Hne.
  simpl. rewrite run_workers_error_full by done.
  destruct (lock_order sc users) as [| u us] eqn:E; [|done].
  pose proof (Hfair users) as Hp. rewrite E in Hp.
  symmetry in Hp. by apply Permutation_nil_r in Hp.
Qed.

Lemma BatchGetUsers_stat_failure_witness :
  BatchGetUsers (memService statFails) finishedFirst exStore 1%N [2%N; 3%N]
  = Returned (None, Some errDown).
Proof.
  apply (BatchGetUsers_stat_failure (memService statFails) finishedFirst exStore 1%N
           [2%N; 3%N] errDown);
    [intros us; reflexivity | vm_compute; reflexivity .. | vm_compute; discriminate].
Defined.

(** X15. When exactly one of the two relationship lookups fails and the
    stat lookup does not, the outcome is decided by the [select]: the full
    list with no error when it takes [finished], the error (unwrapped) and
    no list when it takes [errChan]. *)
Theorem BatchGetUsers_relation_failure_races srv sc db userID userIDs e :
  usersErr srv db userIDs = None →
  curUserErr srv db userID = None →
  (followErr srv db userID userIDs = Some e ∧ fansErr srv db userID userIDs = None)
  ∨ (followErr srv db userID userIDs = None ∧ fansErr srv db userID userIDs = Some e) →
  statErr srv db userIDs = None →
  BatchGetUsers srv sc db userID userIDs
  = if finished_first sc
    then Returned (Some (mergedViews srv db userID userIDs sc), None)
    else Returned (None, Some e).
Proof.
  unfold usersErr, curUserErr, followErr, fansErr, statErr, mergedViews,
    BatchGetUsers, viewFor, usersOf, curUserOf, followMapOf, fansMapOf, statMapOf.
  destruct (user.GetUsersByIds _ db userIDs) as [users e1]; simpl. intros ->.
  destruct (user.GetUserByID _ db userID) as [cu e2]; simpl. intros ->.
  destruct (user.GetFollowByUIds _ db userID userIDs) as [fm e3]; simpl.
  destruct (user.GetFansByUIds _ db userID userIDs) as [fa e4]; simpl.
  destruct (user.GetUserStatByIDs _ db userIDs) as [sm e5]; simpl.
  intros [[-> ->] | [-> ->]] ->; simpl;
    rewrite run_workers_no_error; simpl;
    destruct (finished_first sc); by rewrite ?merge_fmap.
Qed.

Lemma BatchGetUsers_relation_failure_races_witness :
  BatchGetUsers (memService fansFails) finishedFirst exStore 1%N [2%N; 3%N]
  = Returned (Some (mergedViews (memService fansFails) exStore 1%N [2%N; 3%N]
                      finishedFirst), None)
  ∧ BatchGetUsers (memService fansFails) inOrder exStore 1%N [2%N; 3%N]
    = Returned (None, Some errDown).
Proof.
  split.
  - apply (BatchGetUsers_relation_failure_races (memService fansFails) finishedFirst
             exStore 1%N [2%N; 3%N] errDown); try (vm_compute; reflexivity).
    right. split; vm_compute; reflexivity.
  - apply (BatchGetUsers_relation_failure_races (memService fansFails) inOrder
             exStore 1%N [2%N; 3%N] errDown); try (vm_compute; reflexivity).
    right. split; vm_compute; reflexivity.
Defined.

(** X16. When two of the three lookups of the relationships and the stats
    fail, the second error is sent on a channel that is full and that
    nothing reads yet: the call does not return, under any schedule. *)
Theorem BatchGetUsers_two_failures_block srv sc db userID userIDs :
  usersErr srv db userIDs = None →
  curUserErr srv db userID = None →
  (followErr srv db userID userIDs ≠ None ∧ fansErr srv db userID userIDs ≠ None)
  ∨ (followErr srv db userID userIDs ≠ None ∧ statErr srv db userIDs ≠ None)
  ∨ (fansErr srv db userID userIDs ≠ None ∧ statErr srv db userIDs ≠ None) →
  BatchGetUsers srv sc db userID userIDs = Blocked.
Proof.
  unfold usersErr, curUserErr, followErr, fansErr, statErr, BatchGetUsers.
  destruct (user.GetUsersByIds _ db userIDs) as [users e1]; simpl. intros ->.
  destruct (user.GetUserByID _ db userID) as [cu e2]; simpl. intros ->.
  destruct (user.GetFollowByUIds _ db userID userIDs) as [fm [e3|]];
    destruct (user.GetFansByUIds _ db userID userIDs) as [fa [e4|]];
    destruct (user.GetUserStatByIDs _ db userIDs) as [sm [e5|]];
    simpl; intros [[H1 H2] | [[H1 H2] | [H1 H2]]]; done.
Qed.

Lemma BatchGetUsers_two_failures_block_witness :
  BatchGetUsers (memService bothRelationsFail) finishedFirst exStore 1%N [2%N]
  = Blocked.
Proof.
  apply (BatchGetUsers_two_failures_block (memService bothRelationsFail) finishedFirst
           exStore 1%N [2%N]); try (vm_compute; reflexivity).
  left. split; vm_compute; discriminate.
Defined.

(** ** The entries of the aggregation *)

Lemma NoDup_fmap_eq {A B} (f : A → B) (l : list A) x y :
  NoDup (f <$> l) → x ∈ l → y ∈ l → f x = f y → x = y.
Proof.
  induction l as [| z l IH]; simpl; intros Hnd Hx Hy Hf;
    [by apply elem_of_nil in Hx|].
  apply NoDup_cons in Hnd as [Hz Hnd].
  apply elem_of_cons in Hx as [-> | Hx]; apply elem_of_cons in Hy as [-> | Hy].
  - done.
  - destruct Hz. rewrite Hf. by apply list_elem_of_fmap_2.
  - destruct Hz. rewrite <- Hf. by apply list_elem_of_fmap_2.
  - by apply IH.
Qed.

(** X17. An id that occurs at two positions of the input gets the same
    entry at both positions of the output. *)
Theorem BatchGetUsers_same_id_same_entry srv sc db userID userIDs infos :
  BatchGetUsers srv sc db userID userIDs = Returned (Some infos, None) →
  ∀ i j id, userIDs !! i = Some id → userIDs !! j = Some id →
    infos !! i = infos !! j ∧ is_Some (infos !! i).
Proof.
  intros ->%BatchGetUsers_success i j id Hi Hj.
  rewrite !list_lookup_fmap, Hi, Hj; simpl. eauto.
Qed.

Lemma BatchGetUsers_same_id_same_entry_witness :
  ∃ infos,
    BatchGetUsers (memService noFaults) reversed exStore 1%N [3%N; 2%N; 3%N]
    = Returned (Some infos, None)
    ∧ infos !! 0%nat = infos !! 2%nat ∧ is_Some (infos !! 0%nat).
Proof.
  eexists. split; [vm_compute; reflexivity|].
  apply (BatchGetUsers_same_id_same_entry (memService noFaults) reversed exStore 1%N
           [3%N; 2%N; 3%N] _ eq_refl 0%nat 2%nat 3%N); reflexivity.
Defined.

(** X18. The view of a target carries the stat the stat lookup returned
    for the target's id, and no stat when the lookup returned none for
    it; a missing stat is not an error. *)
Theorem BatchGetUsers_attaches_stat srv sc db userID userIDs infos :
  BatchGetUsers srv sc db userID userIDs = Returned (Some infos, None) →
  ∀ i id info, userIDs !! i = Some id → infos !! i = Some (Some info) →
    info_Stat info = statMapOf srv db userIDs !! id.
Proof.
  intros ->%BatchGetUsers_success i id info Hi.
  rewrite list_lookup_fmap, Hi; simpl. intros [= H].
  by apply viewFor_entry in H as (u & _ & <- & ->).
Qed.

Lemma BatchGetUsers_attaches_stat_witness :
  ∃ infos i2 i4,
    BatchGetUsers (memService noFaults) inOrder exStore 1%N [2%N; 4%N]
    = Returned (Some infos, None)
    ∧ infos = [Some i2; Some i4]
    ∧ info_Stat i2 = statMapOf (memService noFaults) exStore [2%N; 4%N] !! 2%N
    ∧ info_Stat i4 = None.
Proof.
  do 3 eexists. split; [vm_compute; reflexivity|]. split; [reflexivity|].
  split.
  - apply (BatchGetUsers_attaches_stat (memService noFaults) inOrder exStore 1%N
             [2%N; 4%N] _ eq_refl 0%nat 2%N); reflexivity.
  - reflexivity.
Defined.

(** X19. When the records the repository returned have distinct ids, the
    result does not depend on the order in which the workers ran: the
    entry for the id of a returned record is the view of that record. *)
Theorem BatchGetUsers_schedule_independent srv sc db userID userIDs infos :
  fair sc →
  NoDup (ID <$> usersOf srv db userIDs) →
  BatchGetUsers srv sc db userID userIDs = Returned (Some infos, None) →
  ∀ i u, u ∈ usersOf srv db userIDs → userIDs !! i = Some (ID u) →
    infos !! i = Some (Some (viewFor srv db userID userIDs u)).
Proof.
  intros Hfair Hnd ->%BatchGetUsers_success i u Hu Hi.
  rewrite list_lookup_fmap, Hi; simpl. f_equal.
  destruct (collect_lookup_elem (viewFor srv db userID userIDs)
              (lock_order sc (usersOf srv db userIDs)) ∅ u) as [info Hinfo];
    [by rewrite (Hfair (usersOf srv db userIDs))|].
  rewrite Hinfo. f_equal.
  apply viewFor_entry in Hinfo as (u' & Hu' & Hid & ->).
  rewrite (Hfair (usersOf srv db userIDs)) in Hu'.
  by rewrite (NoDup_fmap_eq ID _ u' u Hnd Hu' Hu Hid).
Qed.

Lemma BatchGetUsers_schedule_independent_witness :
  ∃ infos,
    BatchGetUsers (memService noFaults) reversed exStore 1%N [3%N; 2%N]
    = Returned (Some infos, None)
    ∧ infos !! 0%nat
      = Some (Some (viewFor (memService noFaults) exStore 1%N [3%N; 2%N]
                      (mkUser 3%N "cat" 13800000003))).
Proof.
  eexists. split; [vm_compute; reflexivity|].
  apply (BatchGetUsers_schedule_independent (memService noFaults) reversed exStore 1%N
           [3%N; 2%N]).
  - intros us. apply reverse_Permutation.
  - eapply bool_decide_unpack. vm_compute. exact I.
  - vm_compute. reflexivity.
  - vm_compute. apply list_elem_of_further, list_elem_of_here.
  - reflexivity.
Defined.

(** X20. [GetUserInfoByID] for an id whose record the batch lookup does not
    return, while no lookup fails, returns neither a view nor an error. *)
Theorem GetUserInfoByID_missing_user srv sc db id :
  fair sc →
  usersErr srv db [id] = None →
  curUserErr srv db id = None →
  followErr srv db id [id] = None →
  fansErr srv db id [id] = None →
  statErr srv db [id] = None →
  (∀ u, u ∈ usersOf srv db [id] → ID u ≠ id) →
  GetUserInfoByID srv sc db id = Returned (None, None).
Proof.
  intros Hfair H1 H2 H3 H4 H5 Hmiss.
  assert (E : BatchGetUsers srv sc db id [id]
              = Returned (Some (mergedViews srv db id [id] sc), None)).
  { revert H1 H2 H3 H4 H5.
    unfold usersErr, curUserErr, followErr, fansErr, statErr, mergedViews,
      BatchGetUsers, viewFor, usersOf, curUserOf, followMapOf, fansMapOf, statMapOf.
    destruct (user.GetUsersByIds _ db [id]) as [users e1]; simpl. intros ->.
    destruct (user.GetUserByID _ db id) as [cu e2]; simpl. intros ->.
    destruct (user.GetFollowByUIds _ db id [id]) as [fm e3]; simpl. intros ->.
    destruct (user.GetFansByUIds _ db id [id]) as [fa e4]; simpl. intros ->.
    destruct (user.GetUserStatByIDs _ db [id]) as [sm e5]; simpl. intros ->.
    simpl. by rewrite run_workers_no_error. }
  unfold GetUserInfoByID. rewrite E. unfold mergedViews; simpl.
  destruct (collect _ _ _ !! id) as [info|] eqn:Hc; [|done].
  apply viewFor_entry in Hc as (u & Hu & Hid & _).
  rewrite (Hfair (usersOf srv db [id])) in Hu. by destruct (Hmiss u Hu).
Qed.

Lemma GetUserInfoByID_missing_user_witness :
  GetUserInfoByID hiddenUsers inOrder exStore 1%N = Returned (None, None).
Proof.
  apply (GetUserInfoByID_missing_user hiddenUsers inOrder exStore 1%N);
    [intros us; reflexivity | vm_compute; reflexivity .. |].
  intros u Hu. vm_compute in Hu. by apply elem_of_nil in Hu.
Defined.

(** ** The logins and the registration *)

Lemma PhoneLogin_registers_once_witness :
  user_tbl (fst (PhoneLogin (memService noFaults) memSign exStore 13800138000 1234))
  = user_tbl exStore ++ [mkUser (nextID (user_tbl exStore)) (Itoa 13800138000) 13800138000]
  ∧ fst (PhoneLogin (memService noFaults) memSign
           (fst (PhoneLogin (memService noFaults) memSign exStore 13800138000 1234))
           13800138000 4321)
    = fst (PhoneLogin (memService noFaults) memSign exStore 13800138000 1234).
Proof.
  apply (PhoneLogin_registers_once memSign exStore 13800138000 1234 4321).
  intros u Hu. vm_compute in Hu.
  repeat (apply elem_of_cons in Hu as [-> | Hu]; [vm_compute; discriminate|]).
  by apply elem_of_nil in Hu.
Defined.

(** X22. A login that returns an error returns the empty token, by phone
    and by email alike. *)
Theorem login_error_gives_empty_token srv acct Compare Sign db phone code email password :
  (snd (snd (PhoneLogin srv Sign db phone code)) ≠ None →
   fst (snd (PhoneLogin srv Sign db phone code)) = "")
  ∧ (snd (EmailLogin acct Compare Sign db email password) ≠ None →
     fst (EmailLogin acct Compare Sign db email password) = "").
Proof.
  split.
  - unfold PhoneLogin.
    destruct (GetUserByPhone srv db phone) as [u [e|]]; simpl; [done|].
    destruct (ID u =? 0)%N.
    + destruct (user.Create _ db _) as [db1 [id [e|]]]; simpl; [done|].
      by destruct (Sign _) as [tok [e|]].
    + by destruct (Sign _) as [tok [e|]].
  - unfold EmailLogin.
    destruct (GetUserByEmail acct db email) as [u [e|]]; simpl; [done|].
    destruct (Compare (Password u) password) as [e|]; simpl; [done|].
    by destruct (Sign _) as [tok [e|]].
Qed.

Lemma login_error_gives_empty_token_witness :
  fst (snd (PhoneLogin (memService noFaults) downSign exStore 13800000002 1234)) = ""
  ∧ fst (EmailLogin memAccountOps memCompare memSign exStore "" "secret") = "".
Proof.
  destruct (login_error_gives_empty_token (memService noFaults) memAccountOps memCompare
              memSign exStore 13800000002 1234 "" "secret") as [_ H2].
  destruct (login_error_gives_empty_token (memService noFaults) memAccountOps memCompare
              downSign exStore 13800000002 1234 "" "secret") as [H1 _].
  split; [apply H1 | apply H2]; vm_compute; discriminate.
Defined.

(** X23. The only write of a login by phone is the creation of a user named
    after the phone, and it is made exactly when the lookup reports no
    error and gives a record with id 0; whether the creation or the
    signing then fails does not change what is stored. *)
Theorem PhoneLogin_store_effect srv Sign db phone code :
  fst (PhoneLogin srv Sign db phone code)
  = match user.GetUserByPhone (userRepo srv) db phone with
    | (u, None) =>
        if (ID u =? 0)%N
        then fst (user.Create (userRepo srv) db (mkUser 0%N (Itoa phone) phone))
        else db
    | (_, Some _) => db
    end.
Proof.
  unfold PhoneLogin, GetUserByPhone.
  destruct (user.GetUserByPhone _ db phone) as [u [e|]]; simpl; [done|].
  destruct (ID u =? 0)%N.
  - change {| ID := 0%N; Username := Itoa phone; Password := ""; Email := "";
              Phone := phone; CreatedAt := 0; UpdatedAt := 0 |}
      with (mkUser 0%N (Itoa phone) phone).
    destruct (user.Create _ db _) as [db1 [id [e|]]]; simpl; [done|].
    by destruct (Sign _) as [tok [e|]].
  - by destruct (Sign _) as [tok [e|]].
Qed.

(** X24. When the signing fails after a login by phone has created the
    user, the login returns the error and the user stays created. *)
Theorem PhoneLogin_sign_failure_keeps_user srv Sign db phone code u0 db1 id tok e :
  user.GetUserByPhone (userRepo srv) db phone = (u0, None) →
  ID u0 = 0%N →
  user.Create (userRepo srv) db (mkUser 0%N (Itoa phone) phone) = (db1, (id, None)) →
  Sign {| UserID := 0%N; ctx_Username := Username u0 |} = (tok, Some e) →
  PhoneLogin srv Sign db phone code
  = (db1, ("", Some (Wrapped e "[login] gen token sign err"))).
Proof.
  intros Hget Hid Hcreate Hsign.
  rewrite (PhoneLogin_unregistered srv Sign db phone code u0 db1 id Hget Hid Hcreate).
  by rewrite Hsign.
Qed.

Lemma PhoneLogin_sign_failure_keeps_user_witness :
  PhoneLogin (memService noFaults) downSign exStore 13800138000 1234
  = (withUsers exStore
       (user_tbl exStore ++ [mkUser 5%N "13800138000" 13800138000]),
     ("", Some (Wrapped errDown "[login] gen token sign err"))).
Proof.
  apply (PhoneLogin_sign_failure_keeps_user (memService noFaults) downSign exStore
           13800138000 1234 zeroUser _ 5%N "" errDown); vm_compute; reflexivity.
Defined.

(** X25. A login by email returns a token only for the user the lookup
    found and whose stored password compared well with the given one, and
    the token is signed from that user's id and name. *)
Theorem EmailLogin_token_is_for_checked_user acct Compare Sign db email password tok :
  EmailLogin acct Compare Sign db email password = (tok, None) →
  ∃ u, repo.GetUserByEmail acct db email = (u, None)
       ∧ Compare (Password u) password = None
       ∧ Sign {| UserID := ID u; ctx_Username := Username u |} = (tok, None).
Proof.
  unfold EmailLogin, GetUserByEmail.
  destruct (repo.GetUserByEmail acct db email) as [u [e|]]; simpl; [done|].
  destruct (Compare (Password u) password) as [e|] eqn:EC; simpl; [done|].
  destruct (Sign _) as [t [e|]] eqn:ES; simpl; [done|].
  intros [= <-]. by exists u.
Qed.

(** X26. On the repository in memory, with a hasher and a comparison that
    agree on the password: after the registration of an email nobody has,
    a login with that email and password is signed from the id and the
    name of the new user. *)
Theorem Register_then_EmailLogin Encrypt Compare Sign db username email password h :
  (∀ u, u ∈ user_tbl db → Email u ≠ email) →
  Encrypt password = (h, None) →
  Compare h password = None →
  snd (Register (memService noFaults) Encrypt db username email password) = None
  ∧ EmailLogin memAccountOps Compare Sign
      (fst (Register (memService noFaults) Encrypt db username email password))
      email password
    = match Sign {| UserID := nextID (user_tbl db); ctx_Username := username |} with
      | (_, Some e) => ("", Some (Wrapped e "gen token sign err"))
      | (tokenStr, None) => (tokenStr, None)
      end.
Proof.
  intros Hfresh HE HC. unfold Register. rewrite HE; simpl. split; [done|].
  unfold EmailLogin, GetUserByEmail; simpl.
  rewrite find_snoc_fresh; simpl.
  - rewrite HC. by destruct (Sign _) as [t [e|]].
  - intros u Hu. apply String.eqb_neq. by apply Hfresh.
  - apply String.eqb_refl.
Qed.

Lemma Register_then_EmailLogin_witness :
  snd (Register (memService noFaults) memEncrypt exStore "eve" "eve@example.com" "secret")
  = None
  ∧ EmailLogin memAccountOps memCompare memSign
      (fst (Register (memService noFaults) memEncrypt exStore "eve" "eve@example.com"
              "secret"))
      "eve@example.com" "secret"
    = ("eve#5", None).
Proof.
  apply (Register_then_EmailLogin memEncrypt memCompare memSign exStore "eve"
           "eve@example.com" "secret" "hash:secret"); [| reflexivity | reflexivity].
  intros u Hu. vm_compute in Hu.
  repeat (apply elem_of_cons in Hu as [-> | Hu]; [vm_compute; discriminate|]).
  by apply elem_of_nil in Hu.
Defined.

Lemma EmailLogin_token_is_for_checked_user_witness :
  ∃ u,
    repo.GetUserByEmail memAccountOps
      (fst (Register (memService noFaults) memEncrypt exStore "eve" "eve@example.com"
              "secret")) "eve@example.com" = (u, None)
    ∧ memCompare (Password u) "secret" = None
    ∧ memSign {| UserID := ID u; ctx_Username := Username u |} = ("eve#5", None).
Proof.
  apply (EmailLogin_token_is_for_checked_user memAccountOps memCompare memSign
           (fst (Register (memService noFaults) memEncrypt exStore "eve" "eve@example.com"
                   "secret")) "eve@example.com" "secret" "eve#5").
  vm_compute. reflexivity.
Defined.

(** X27. What a registration stores and returns depends on the password
    only through what the hasher makes of it: two passwords with the same
    result of the hasher give the same store and the same error.  When the
    hasher fails, the registration stores nothing and returns an error. *)
Theorem Register_uses_password_through_Encrypt srv Encrypt db username email
    password password' :
  (Encrypt password = Encrypt password' →
   Register srv Encrypt db username email password
   = Register srv Encrypt db username email password')
  ∧ (snd (Encrypt password) ≠ None →
     fst (Register srv Encrypt db username email password) = db
     ∧ snd (Register srv Encrypt db username email password) ≠ None).
Proof.
  unfold Register. split.
  - by intros ->.
  - by destruct (Encrypt password) as [pwd [e|]].
Qed.

Lemma Register_uses_password_through_Encrypt_witness :
  Register (memService noFaults) lengthEncrypt exStore "eve" "eve@example.com" "secret"
  = Register (memService noFaults) lengthEncrypt exStore "eve" "eve@example.com" "terces"
  ∧ fst (Register (memService noFaults) downEncrypt exStore "eve" "eve@example.com"
           "secret") = exStore.
Proof.
  destruct (Register_uses_password_through_Encrypt (memService noFaults) lengthEncrypt
              exStore "eve" "eve@example.com" "secret" "terces") as [H1 _].
  destruct (Register_uses_password_through_Encrypt (memService noFaults) downEncrypt
              exStore "eve" "eve@example.com" "secret" "secret") as [_ H2].
  split; [apply H1; reflexivity | apply H2; vm_compute; discriminate].
Defined.

(** X28. The lookups of the service by phone, by email and by id hand on
    the record of the repository as it is, also with an error, and return
    an error exactly when the repository does: its error wrapped with the
    key that was looked up.  The test for a record that was not found
    changes nothing. *)
Theorem service_lookups_wrap srv acct db phone email id :
  GetUserByPhone srv db phone
  = (fst (user.GetUserByPhone (userRepo srv) db phone),
     errors_Wrap (snd (user.GetUserByPhone (userRepo srv) db phone))
       ("get user info err from db by phone: " ++ Itoa phone)%string)
  ∧ GetUserByEmail acct db email
    = (fst (repo.GetUserByEmail acct db email),
       errors_Wrap (snd (repo.GetUserByEmail acct db email))
         ("get user info err from db by email: " ++ email)%string)
  ∧ GetUserByID srv db id
    = (fst (user.GetUserByID (userRepo srv) db id),
       errors_Wrap (snd (user.GetUserByID (userRepo srv) db id))
         ("get user info err from db by id: " ++ Itoa (Z.of_N id))%string).
Proof.
  unfold GetUserByPhone, GetUserByEmail, GetUserByID.
  destruct (user.GetUserByPhone _ db phone) as [u1 [e1|]];
    destruct (repo.GetUserByEmail acct db email) as [u2 [e2|]];
    destruct (user.GetUserByID _ db id) as [u3 [e3|]]; by simpl.
Qed.

(** X29. A listing asked for with the last id 0 is the listing below
    [MaxID]: no cursor means the start of the list.  Any other last id is
    handed to the repository as it is. *)
Theorem listings_start_at_MaxID lists db userID lastID limit :
  GetFollowingUserList lists db userID 0%N limit
  = GetFollowingUserList lists db userID MaxID limit
  ∧ GetFollowerUserList lists db userID 0%N limit
    = GetFollowerUserList lists db userID MaxID limit
  ∧ (lastID ≠ 0%N →
     fst (GetFollowingUserList lists db userID lastID limit)
     = match snd (repo.GetFollowingUserList lists db userID lastID limit) with
       | Some _ => None
       | None => fst (repo.GetFollowingUserList lists db userID lastID limit)
       end
     ∧ fst (GetFollowerUserList lists db userID lastID limit)
       = match snd (repo.GetFollowerUserList lists db userID lastID limit) with
         | Some _ => None
         | None => fst (repo.GetFollowerUserList lists db userID lastID limit)
         end).
Proof.
  split; [reflexivity | split; [reflexivity|]].
  intros Hne. unfold GetFollowingUserList, GetFollowerUserList.
  destruct (lastID =? 0)%N eqn:E; [by apply N.eqb_eq in E|].
  destruct (repo.GetFollowingUserList lists db userID lastID limit) as [l1 [e1|]];
    destruct (repo.GetFollowerUserList lists db userID lastID limit) as [l2 [e2|]];
    by simpl.
Qed.

Lemma listings_start_at_MaxID_witness :
  GetFollowingUserList echoListOps exStore 1%N 0%N 10
  = (Some [{| follow_ID := MaxID; follow_UserID := 1%N; follow_FollowedUID := 0%N;
              follow_Status := FollowStatusNormal |}], None)
  ∧ fst (GetFollowingUserList echoListOps exStore 1%N 7%N 10)
    = Some [{| follow_ID := 7%N; follow_UserID := 1%N; follow_FollowedUID := 0%N;
               follow_Status := FollowStatusNormal |}].
Proof.
  destruct (listings_start_at_MaxID echoListOps exStore 1%N 7%N 10) as (H1 & _ & H3).
  split.
  - rewrite H1. reflexivity.
  - destruct H3 as [H3 _]; [discriminate|]. rewrite H3. reflexivity.
Defined.

(** X30. A listing that returns an error returns no list, and the error is
    the error of the repository, not wrapped.  A listing that returns no
    error hands on the slice of the repository as it is, so that a [nil]
    list may come without an error. *)
Theorem listings_hand_on_the_repository_result lists db userID lastID limit :
  (snd (GetFollowingUserList lists db userID lastID limit) ≠ None →
   fst (GetFollowingUserList lists db userID lastID limit) = None)
  ∧ (snd (GetFollowingUserList lists db userID lastID limit) = None →
     fst (GetFollowingUserList lists db userID lastID limit)
     = fst (repo.GetFollowingUserList lists db userID
              (if (lastID =? 0)%N then MaxID else lastID) limit))
  ∧ (snd (GetFollowerUserList lists db userID lastID limit) ≠ None →
     fst (GetFollowerUserList lists db userID lastID limit) = None)
  ∧ (snd (GetFollowerUserList lists db userID lastID limit) = None →
     fst (GetFollowerUserList lists db userID lastID limit)
     = fst (repo.GetFollowerUserList lists db userID
              (if (lastID =? 0)%N then MaxID else lastID) limit))
  ∧ snd (GetFollowingUserList lists db userID lastID limit)
    = snd (repo.GetFollowingUserList lists db userID
             (if (lastID =? 0)%N then MaxID else lastID) limit)
  ∧ snd (GetFollowerUserList lists db userID lastID limit)
    = snd (repo.GetFollowerUserList lists db userID
             (if (lastID =? 0)%N then MaxID else lastID) limit).
Proof.
  unfold GetFollowingUserList, GetFollowerUserList.
  destruct (repo.GetFollowingUserList lists db userID _ limit) as [l1 [e1|]];
    destruct (repo.GetFollowerUserList lists db userID _ limit) as [l2 [e2|]];
    simpl; repeat split; try done.
Qed.

Lemma listings_hand_on_the_repository_result_witness :
  GetFollowingUserList downListOps exStore 1%N 0%N 10 = (None, Some errDown)
  ∧ GetFollowerUserList nilListOps exStore 1%N 0%N 10 = (None, None).
Proof.
  destruct (listings_hand_on_the_repository_result downListOps exStore 1%N 0%N 10)
    as (H1 & _ & _ & _ & H5 & _).
  destruct (listings_hand_on_the_repository_result nilListOps exStore 1%N 0%N 10)
    as (_ & _ & _ & H4 & _ & H6).
  split.
  - rewrite (surjective_pairing (GetFollowingUserList downListOps exStore 1%N 0%N 10)).
    rewrite H1, H5; [reflexivity | vm_compute; discriminate].
  - rewrite (surjective_pairing (GetFollowerUserList nilListOps exStore 1%N 0%N 10)).
    rewrite H4, H6; [reflexivity | vm_compute; reflexivity].
Defined.
